(** * Preference companion: the file-backed preference list and the
      elicitation bot that feeds it.

    A shallow embedding of [core/preference_manager.py] and of the
    preference-handling part of [core/elicitation_bot.py], followed by
    the properties of the store that the specification states.

    Conventions of the embedding.
    - A Python [str] is a Rocq [string]; every [ascii] stands for one
      code point below 256.
    - Python values that can sit in the preference list (whatever
      [json.loads] can return, and the dicts the code builds) are the
      type [pyval]; dicts are association lists in insertion order, the
      order [json.dump] writes them in.  JSON numbers with a fraction
      are left out: no function of the program looks at them.
    - Methods are computations in a state-and-exception monad [Eff]: a
      raised exception leaves the state as it was when it was raised.
    - Values that come from outside the program (a fresh uuid, the clock,
      the answers of the language model, the reading of the file, the
      JSON codec of the standard library) are arguments or section
      variables. *)

From Stdlib Require Import Ascii String ZArith List Lia Bool.
From stdpp Require Import base list strings pretty gmap.
Import ListNotations.
Open Scope string_scope.

(** ** Python values *)

Module Py.

#[local] Set Warnings "-register-all".

Inductive pyval : Type :=
| PNone
| PBool (b : bool)
| PInt (z : Z)
| PStr (s : string)
| PList (l : list pyval)
| PDict (d : list (string * pyval)).

(** The exceptions the modelled code can meet: classes derived from
    [Exception], the ones an [except Exception] clause catches.
    (Interrupts and task cancellation are not modelled.) *)
Inductive exn : Type :=
| AttributeError
| TypeError
| OtherError (name : string).

Inductive result (A : Type) : Type :=
| Ok (a : A)
| Raise (e : exn).
Arguments Ok {A} a.
Arguments Raise {A} e.

(** State and exceptions: the state component is the state at the
    moment the computation returned or raised. *)
Definition Eff (S A : Type) : Type := S -> result A * S.

Definition ret {S A} (a : A) : Eff S A := fun s => (Ok a, s).
Definition raise {S A} (e : exn) : Eff S A := fun s => (Raise e, s).
Definition bind {S A B} (c : Eff S A) (k : A -> Eff S B) : Eff S B :=
  fun s => match c s with
           | (Ok a, s') => k a s'
           | (Raise e, s') => (Raise e, s')
           end.
Definition get {S} : Eff S S := fun s => (Ok s, s).
Definition put {S} (s : S) : Eff S unit := fun _ => (Ok tt, s).
Definition lift_result {S A} (r : result A) : Eff S A := fun s => (r, s).

(** [try: body except Exception: handler]. *)
Definition try_except {S A} (body : Eff S A) (handler : exn -> Eff S A)
  : Eff S A :=
  fun s => match body s with
           | (Ok a, s') => (Ok a, s')
           | (Raise e, s') => handler e s'
           end.

(** [for x in xs: body x]. *)
Fixpoint for_each {S A} (xs : list A) (body : A -> Eff S unit) : Eff S unit :=
  match xs with
  | [] => ret tt
  | x :: xs' => bind (body x) (fun _ => for_each xs' body)
  end.

(** *** Strings *)

(** [str.isspace] on one code point below 256. *)
Definition is_space (c : ascii) : bool :=
  let n := nat_of_ascii c in
  ((9 <=? n)%nat && (n <=? 13)%nat) || ((28 <=? n)%nat && (n <=? 32)%nat)
  || (n =? 133)%nat || (n =? 160)%nat.

Fixpoint lstrip_chars (s : list ascii) : list ascii :=
  match s with
  | c :: s' => if is_space c then lstrip_chars s' else s
  | [] => []
  end.

Definition strip_chars (s : list ascii) : list ascii :=
  rev (lstrip_chars (rev (lstrip_chars s))).

(** [s.strip()]. *)
Definition strip (s : string) : string :=
  string_of_list_ascii (strip_chars (list_ascii_of_string s)).

(** [len(s)]. *)
Definition len (s : string) : nat := String.length s.

(** *** Dicts and the dynamic operations the code applies to values *)

(** [d.get(k)]: the value under [k], [None] when the key is absent. *)
Fixpoint dict_get (d : list (string * pyval)) (k : string) : pyval :=
  match d with
  | [] => PNone
  | (k', v) :: d' => if String.eqb k' k then v else dict_get d' k
  end.

(** [p.get(k)] on an arbitrary value: only dicts have [get]. *)
Definition py_get (p : pyval) (k : string) : result pyval :=
  match p with
  | PDict d => Ok (dict_get d k)
  | _ => Raise AttributeError
  end.

(** [v == s] for a string [s]: only an equal string is equal to it. *)
Definition eq_str (v : pyval) (s : string) : bool :=
  match v with
  | PStr s' => String.eqb s' s
  | _ => false
  end.

(** [len(v)]. *)
Definition py_len (v : pyval) : result nat :=
  match v with
  | PList l => Ok (length l)
  | PDict d => Ok (length d)
  | PStr s => Ok (len s)
  | _ => Raise TypeError
  end.

(** The values [for p in v] runs through: the items of a list, the keys
    of a dict, the one-character strings of a string. *)
Definition py_iter (v : pyval) : result (list pyval) :=
  match v with
  | PList l => Ok l
  | PDict d => Ok (map (fun kv => PStr (fst kv)) d)
  | PStr s => Ok (map (fun c => PStr (String c EmptyString))
                      (list_ascii_of_string s))
  | _ => Raise TypeError
  end.

(** Truth value of a value, as [if not v] reads it. *)
Definition py_truthy (v : pyval) : bool :=
  match v with
  | PNone => false
  | PBool b => b
  | PInt z => negb (Z.eqb z 0)
  | PStr s => negb (len s =? 0)%nat
  | PList l => negb (length l =? 0)%nat
  | PDict d => negb (length d =? 0)%nat
  end.

(** [d[k]]: the value under [k]; a missing key is a [KeyError]. *)
Fixpoint dict_item (d : list (string * pyval)) (k : string) : result pyval :=
  match d with
  | [] => Raise (OtherError "KeyError")
  | (k', v) :: d' => if String.eqb k' k then Ok v else dict_item d' k
  end.

(** [p[k]] for a string [k] on an arbitrary value: only a dict can be
    indexed by a string. *)
Definition py_item (p : pyval) (k : string) : result pyval :=
  match p with
  | PDict d => dict_item d k
  | _ => Raise TypeError
  end.

(** [sep.join(parts)]. *)
Fixpoint str_join (sep : string) (parts : list string) : string :=
  match parts with
  | [] => ""
  | [p] => p
  | p :: parts' => p +:+ sep +:+ str_join sep parts'
  end.

End Py.
Export Py.

Declare Scope eff_scope.
Delimit Scope eff_scope with eff.
Notation "x <- c ;; k" := (bind c (fun x => k))
  (at level 100, c at next level, right associativity) : eff_scope.
Notation "c ;;; k" := (bind c (fun _ => k))
  (at level 100, right associativity) : eff_scope.
Open Scope eff_scope.

(** ** Regular expressions, as the [re] module runs them *)

Module Re.

(** What a pattern can ask of one character. *)
Inductive atom : Type :=
| AChr (c : ascii)     (* this character *)
| ADot                 (* [.]: any character but a newline *)
| ASpace.              (* [\s] *)

(** The fragment of the pattern language the program uses.  Repetition
    is only ever applied to one-character items ([.+?], [.*?], [\s+],
    [.+]). *)
Inductive regex : Type :=
| Eps
| One (a : atom)
| Cat (r1 r2 : regex)
| Alt (r1 r2 : regex)
| Opt (r : regex)                (* [(?:r)?] *)
| Star (a : atom)                (* [a*] *)
| Plus (a : atom)                (* [a+] *)
| LazyStar (a : atom)            (* [a*?] *)
| LazyPlus (a : atom)            (* [a+?] *)
| Group (n : nat) (r : regex)    (* the [n]-th capturing group *)
| Eos.                           (* [$] *)

Definition newline : ascii := ascii_of_nat 10.

(** ASCII lower case; with a pattern made of ASCII characters and a
    subject below code point 256 this is all [re.IGNORECASE] does. *)
Definition lower (c : ascii) : ascii :=
  let n := nat_of_ascii c in
  if (65 <=? n)%nat && (n <=? 90)%nat then ascii_of_nat (n + 32) else c.

(** The groups that took part in a match, most recent first. *)
Definition captures : Type := list (nat * list ascii).

Fixpoint group (caps : captures) (n : nat) : option (list ascii) :=
  match caps with
  | [] => None
  | (n', g) :: caps' => if (n' =? n)%nat then Some g else group caps' n
  end.

Section Matcher.
Variable ignorecase : bool.

Definition atom_ok (a : atom) (c : ascii) : bool :=
  match a with
  | AChr x => if ignorecase then Ascii.eqb (lower x) (lower c)
              else Ascii.eqb x c
  | ADot => negb (Ascii.eqb c newline)
  | ASpace => is_space c
  end.

Section Backtracking.
Context {R : Type}.
(** What remains to be matched after the current item: it receives
    the rest of the subject and the groups so far. *)
Let cont : Type := list ascii -> captures -> option R.

(** Greedy: take one more character first, give it back on failure. *)
Fixpoint greedy_star (a : atom) (s : list ascii) (caps : captures)
    (k : cont) : option R :=
  match s with
  | c :: s' =>
      if atom_ok a c then
        match greedy_star a s' caps k with
        | Some x => Some x
        | None => k s caps
        end
      else k s caps
  | [] => k s caps
  end.

(** Lazy: try to go on first, take one more character on failure. *)
Fixpoint lazy_star (a : atom) (s : list ascii) (caps : captures)
    (k : cont) : option R :=
  match k s caps with
  | Some x => Some x
  | None =>
      match s with
      | c :: s' => if atom_ok a c then lazy_star a s' caps k else None
      | [] => None
      end
  end.

Definition one_then (a : atom) (s : list ascii)
    (k : list ascii -> option R) : option R :=
  match s with
  | c :: s' => if atom_ok a c then k s' else None
  | [] => None
  end.

(** The backtracking matcher: alternatives are tried in the order
    the pattern lists them, the first full success wins. *)
Fixpoint exec (r : regex) (s : list ascii) (caps : captures)
    (k : cont) : option R :=
  match r with
  | Eps => k s caps
  | One a => one_then a s (fun s' => k s' caps)
  | Cat r1 r2 => exec r1 s caps (fun s' caps' => exec r2 s' caps' k)
  | Alt r1 r2 =>
      match exec r1 s caps k with
      | Some x => Some x
      | None => exec r2 s caps k
      end
  | Opt r1 =>
      match exec r1 s caps k with
      | Some x => Some x
      | None => k s caps
      end
  | Star a => greedy_star a s caps k
  | Plus a => one_then a s (fun s' => greedy_star a s' caps k)
  | LazyStar a => lazy_star a s caps k
  | LazyPlus a => one_then a s (fun s' => lazy_star a s' caps k)
  | Group n r1 =>
      exec r1 s caps
        (fun s' caps' =>
           k s' ((n, firstn (length s - length s') s) :: caps'))
  | Eos =>
      (* the end of the subject, or just before its final newline *)
      match s with
      | [] => k s caps
      | [c] => if Ascii.eqb c newline then k s caps else None
      | _ => None
      end
  end.
End Backtracking.

(** A match starting exactly here: what is left of the subject after
    it, and its groups. *)
Definition match_at (r : regex) (s : list ascii)
  : option (list ascii * captures) :=
  exec r s [] (fun s' caps => Some (s', caps)).

(** [re.search]: the match at the leftmost position that has one. *)
Fixpoint search_chars (r : regex) (s : list ascii)
  : option (list ascii * captures) :=
  match match_at r s with
  | Some m => Some m
  | None =>
      match s with
      | _ :: s' => search_chars r s'
      | [] => None
      end
  end.

(** [re.finditer]: the matches from left to right, none overlapping
    an earlier one.  [skip] counts the characters still covered by
    the previous match.  (After an empty match the scan moves on by
    one character; the patterns below start with a literal and cannot
    match the empty string.) *)
Fixpoint finditer_from (r : regex) (s : list ascii) (skip : nat)
  : list captures :=
  match s with
  | [] =>
      match skip with
      | 0 => match match_at r [] with
             | Some (_, caps) => [caps]
             | None => []
             end
      | S _ => []
      end
  | _ :: s' =>
      match skip with
      | S n => finditer_from r s' n
      | 0 =>
          match match_at r s with
          | Some (rest, caps) =>
              caps :: finditer_from r s' (length s - length rest - 1)
          | None => finditer_from r s' 0
          end
      end
  end.
End Matcher.

Definition search (ignorecase : bool) (r : regex) (s : string)
  : option captures :=
  option_map snd (search_chars ignorecase r (list_ascii_of_string s)).

Definition finditer (ignorecase : bool) (r : regex) (s : string)
  : list captures :=
  finditer_from ignorecase r (list_ascii_of_string s) 0.

(** [m.group(n)] as a string. *)
Definition group_str (caps : captures) (n : nat) : option string :=
  option_map string_of_list_ascii (group caps n).

(** Number of capturing groups of a pattern: the length of [m.groups()]. *)
Fixpoint ngroups (r : regex) : nat :=
  match r with
  | Cat r1 r2 | Alt r1 r2 => ngroups r1 + ngroups r2
  | Opt r1 => ngroups r1
  | Group _ r1 => S (ngroups r1)
  | _ => 0
  end.

(** *** Writing patterns *)

Fixpoint lit_chars (s : list ascii) : regex :=
  match s with
  | [] => Eps
  | [c] => One (AChr c)
  | c :: s' => Cat (One (AChr c)) (lit_chars s')
  end.

(** A literal piece of text. *)
Definition lit (s : string) : regex := lit_chars (list_ascii_of_string s).

(** [r1 r2 ... rn]. *)
Fixpoint seq (rs : list regex) : regex :=
  match rs with
  | [] => Eps
  | [r] => r
  | r :: rs' => Cat r (seq rs')
  end.

(** [(?:r|r1|...|rn)]. *)
Fixpoint alt (r : regex) (rs : list regex) : regex :=
  match rs with
  | [] => r
  | r1 :: rs' => Alt r (alt r1 rs')
  end.

(** [(?:w|w1|...|wn)] for literal words. *)
Definition words (w : string) (ws : list string) : regex :=
  alt (lit w) (map lit ws).

(** Every capturing group of the pattern is a repetition of [.], lazy
    or greedy, empty allowed or not. *)
Fixpoint dot_groups (r : regex) : bool :=
  match r with
  | Cat r1 r2 | Alt r1 r2 => dot_groups r1 && dot_groups r2
  | Opt r1 => dot_groups r1
  | Group _ (LazyPlus ADot) | Group _ (LazyStar ADot)
  | Group _ (Plus ADot) | Group _ (Star ADot) => true
  | Group _ _ => false
  | _ => true
  end.

(** A character [.] accepts. *)
Definition dot_char (c : ascii) : Prop := Ascii.eqb c newline = false.

(** All groups taken so far are runs of such characters. *)
Definition dotted (caps : captures) : Prop :=
  Forall (fun ng => Forall dot_char (snd ng)) caps.

End Re.

(** ** core/preference_manager.py *)

Module PreferenceManager.

(** The manager: its list, and the content of the file at
    [storage_path] ([None] while the file does not exist). *)
Record manager : Type := {
  preferences : pyval;
  storage : option string
}.

Section Codec.
(** [json.dumps(v, indent=2)]; and the two calls of the standard
    library that loading makes, each of which returns or raises:
    [open(path, 'r')] followed by [f.read()] on a file that holds the
    given content, and [json.loads] of a text. *)
Variable json_dumps : pyval -> string.
Variable read_text : string -> result string.
Variable json_loads : string -> result pyval.

(** [except (json.JSONDecodeError, FileNotFoundError)]: the two
    exceptions that [_load_preferences] catches. *)
Definition load_handled (e : exn) : bool :=
  match e with
  | OtherError name =>
      String.eqb name "JSONDecodeError" || String.eqb name "FileNotFoundError"
  | _ => false
  end.

Definition _load_preferences (file : option string) : result pyval :=
  match file with
  | None => Ok (PList [])
  | Some content =>
      let body :=
        match read_text content with
        | Ok text =>
            let data := strip text in
            if (len data =? 0)%nat || String.eqb data "{}" then Ok (PList [])
            else json_loads data
        | Raise e => Raise e
        end in
      match body with
      | Ok v => Ok v
      | Raise e => if load_handled e then Ok (PList []) else Raise e
      end
  end.

(** [PreferenceManager(storage_path)] on a file system where the file
    holds [file] and its directory exists: an exception that
    [_load_preferences] lets through leaves the constructor, and no
    manager is made. *)
Definition __init__ (file : option string) : result manager :=
  match _load_preferences file with
  | Ok v => Ok {| preferences := v; storage := file |}
  | Raise e => Raise e
  end.

Definition _save_preferences : Eff manager unit :=
  fun m => (Ok tt, {| preferences := preferences m;
                      storage := Some (json_dumps (preferences m)) |}).

(** [self.preferences.append(v)]: only a list has [append]. *)
Definition preferences_append (v : pyval) : Eff manager unit :=
  fun m => match preferences m with
           | PList l => (Ok tt, {| preferences := PList (l ++ [v]);
                                   storage := storage m |})
           | _ => (Raise AttributeError, m)
           end.

(** [new_id] is the value of [str(uuid.uuid4())] in this call. *)
Definition add_preference (preference_text : pyval) (source : string)
    (new_id : string) : Eff manager pyval :=
  let new_pref := PDict [("text", preference_text);
                         ("source", PStr source);
                         ("id", PStr new_id)] in
  preferences_append new_pref ;;;
  _save_preferences ;;;
  ret new_pref.

Definition get_preferences : Eff manager pyval :=
  m <- get ;; ret (preferences m).

(** [[p for p in ps if p.get("id") != pref_id]]. *)
Fixpoint without_id (ps : list pyval) (pref_id : string)
  : result (list pyval) :=
  match ps with
  | [] => Ok []
  | p :: ps' =>
      match py_get p "id" with
      | Raise e => Raise e
      | Ok v =>
          match without_id ps' pref_id with
          | Raise e => Raise e
          | Ok kept => Ok (if negb (eq_str v pref_id) then p :: kept
                           else kept)
          end
      end
  end.

Definition delete_preference (pref_id : string) : Eff manager bool :=
  m <- get ;;
  initial_length <- lift_result (py_len (preferences m)) ;;
  items <- lift_result (py_iter (preferences m)) ;;
  kept <- lift_result (without_id items pref_id) ;;
  put {| preferences := PList kept; storage := storage m |} ;;;
  if (length kept <? initial_length)%nat then
    _save_preferences ;;; ret true
  else ret false.

End Codec.

(** Reading or parsing the file content [content] raises [e]: either
    the read raises it, or the text that was read is neither blank nor
    [{}] once stripped and [json.loads] of it raises [e]. *)
Definition loading_raises (read_text : string -> result string)
    (json_loads : string -> result pyval) (content : string) (e : exn)
  : Prop :=
  read_text content = Raise e
  \/ exists text,
       read_text content = Ok text
       /\ strip text <> "" /\ strip text <> "{}"
       /\ json_loads (strip text) = Raise e.

(** [for pref in ps: if pref.get("id") == pref_id: return pref], then
    [return None]. *)
Fixpoint first_with_id (ps : list pyval) (pref_id : string) : result pyval :=
  match ps with
  | [] => Ok PNone
  | p :: ps' =>
      match py_get p "id" with
      | Raise e => Raise e
      | Ok v => if eq_str v pref_id then Ok p else first_with_id ps' pref_id
      end
  end.

Definition get_preference_by_id (pref_id : string) : Eff manager pyval :=
  m <- get ;;
  items <- lift_result (py_iter (preferences m)) ;;
  lift_result (first_with_id items pref_id).

(** *** Histories of a store

    The vocabulary the properties of the store are stated in. *)

(** The items of the list (none when [preferences] is not a list). *)
Definition records (m : manager) : list pyval :=
  match preferences m with
  | PList l => l
  | _ => []
  end.

(** The record [add_preference] builds. *)
Definition new_record (preference_text : pyval) (source new_id : string)
  : pyval :=
  PDict [("text", preference_text); ("source", PStr source);
         ("id", PStr new_id)].

(** [p] is a record whose [id] is the string [pref_id]. *)
Definition has_id (pref_id : string) (p : pyval) : bool :=
  match p with
  | PDict d => eq_str (dict_get d "id") pref_id
  | _ => false
  end.

(** [p] passes the filter of [delete_preference pref_id]. *)
Definition keeps (pref_id : string) (p : pyval) : bool :=
  negb (has_id pref_id p).

(** The ids of the records of a list, in order: [p.get("id")] for every
    dict [p]. *)
Definition ids (l : list pyval) : list pyval :=
  flat_map (fun p => match p with
                     | PDict d => [dict_get d "id"]
                     | _ => []
                     end) l.

(** A call of one of the two mutating methods; an [Add] carries the
    uuid its call drew. *)
Inductive op : Type :=
| Add (preference_text : pyval) (source new_id : string)
| Delete (pref_id : string).

(** A request to add: text, source and the uuid drawn for it. *)
Definition add_of (a : pyval * string * string) : op :=
  match a with (t, s, i) => Add t s i end.

Definition record_of (a : pyval * string * string) : pyval :=
  match a with (t, s, i) => new_record t s i end.

Section Histories.
Variable json_dumps : pyval -> string.

(** The manager after a call, whether it returned or raised. *)
Definition exec (o : op) (m : manager) : manager :=
  match o with
  | Add t s i => snd (add_preference json_dumps t s i m)
  | Delete i => snd (delete_preference json_dumps i m)
  end.

Definition run (ops : list op) (m : manager) : manager :=
  fold_left (fun m o => exec o m) ops m.

(** A call with its outcome: what [add_preference] returns, or what
    [delete_preference] returns as a value. *)
Definition call (o : op) : Eff manager pyval :=
  match o with
  | Add t s i => add_preference json_dumps t s i
  | Delete i => deleted <- delete_preference json_dumps i ;; ret (PBool deleted)
  end.

(** The states a store goes through when every uuid drawn is new to
    the store at the time it is drawn. *)
Inductive reachable (m0 : manager) : manager -> Prop :=
| reach_start : reachable m0 m0
| reach_add m t s new_id :
    reachable m0 m ->
    ~ In (PStr new_id) (ids (records m)) ->
    reachable m0 (exec (Add t s new_id) m)
| reach_delete m pref_id :
    reachable m0 m ->
    reachable m0 (exec (Delete pref_id) m).
End Histories.

End PreferenceManager.

(** ** core/elicitation_bot.py *)

Module ElicitationBot.
Import Re PreferenceManager.

(** [(?:\.|\!|\n|$)], the end of every preference pattern. *)
Definition ending : regex :=
  alt (lit ".") [lit "!"; One (AChr newline); Eos].

(** [I (?:w|...) (.+?)(?:\.|\!|\n|$)] and its variants: a literal head,
    one word out of several, a space, the lazy group, the ending. *)
Definition head_words (head w : string) (ws : list string) : regex :=
  seq [lit head; words w ws; lit " "; Group 1 (LazyPlus ADot); ending].

(** [w1\s+w2\s+...wn\s+(.*?)(?:\.|\!|\n|$)]. *)
Definition spaced (ws : list string) : regex :=
  seq (flat_map (fun w => [lit w; Plus ASpace]) ws
       ++ [Group 1 (LazyStar ADot); ending]).

Definition preference_patterns : list regex := [
  seq [lit "I "; Opt (lit "really ");
       words "like" ["love"; "enjoy"; "prefer"; "adore"; "am fond of";
                     "favor"];
       lit " "; Group 1 (LazyPlus ADot); ending];
  head_words "I'm " "a big fan of" ["passionate about"; "interested in"];
  seq [lit "My favorite "; Group 1 (LazyPlus ADot); lit " ";
       words "is" ["are"]; lit " "; Group 2 (LazyPlus ADot); ending];
  head_words "I " "hate" ["dislike"; "can't stand"; "despise"];
  head_words "I " "wish" ["want"; "would like"; "hope"; "desire"];
  seq [lit "I "; words "believe" ["think"; "feel"; "am convinced"];
       lit " "; Opt (lit "that "); Group 1 (LazyPlus ADot); ending];
  head_words "I'm " "attracted to" ["into"; "turned on by"];
  head_words "I " "always" ["usually"; "often"; "sometimes"; "rarely";
                            "never"];
  spaced ["I"; "prefer"];
  spaced ["I"; "need"];
  spaced ["I"; "would"; "prefer"];
  spaced ["I"; "don't"; "like"];
  spaced ["I"; "appreciate"];
  spaced ["I"; "value"];
  spaced ["I"; "hate"; "when"];
  spaced ["it"; "bothers"; "me"; "when"];
  spaced ["it"; "annoys"; "me"; "when"]
].

(** What one match contributes: [match.group(1).strip()] when the
    pattern has groups and group 1 is longer than 5 characters.  (Group 1
    lies on every path through every pattern above, so a match always
    has it.) *)
Definition kept_group (pattern : regex) (m : captures) : list string :=
  match group m 1 with
  | Some g =>
      if (0 <? ngroups pattern)%nat && (5 <? length g)%nat
      then [strip (string_of_list_ascii g)] else []
  | None => []
  end.

Definition _extract_preferences_with_pattern (text : string) : list string :=
  flat_map (fun pattern => flat_map (kept_group pattern)
                                    (finditer true pattern text))
           preference_patterns.

(** [PREFERENCE: (.+)]. *)
Definition preference_line : regex :=
  seq [lit "PREFERENCE: "; Group 1 (Plus ADot)].

Record chat_message : Type := {
  role : string;
  content : option string
}.

(** The bot, together with how many values the program has drawn so
    far from [uuid.uuid4()], from the clock and from the language model. *)
Record bot : Type := {
  preference_manager : manager;
  conversations : gmap string (list chat_message);
  uuids_drawn : nat;
  clock_reads : nat;
  llm_calls : nat
}.

Definition with_manager (m : manager) (b : bot) : bot :=
  {| preference_manager := m; conversations := conversations b;
     uuids_drawn := uuids_drawn b; clock_reads := clock_reads b;
     llm_calls := llm_calls b |}.

Definition with_conversations (c : gmap string (list chat_message))
    (b : bot) : bot :=
  {| preference_manager := preference_manager b; conversations := c;
     uuids_drawn := uuids_drawn b; clock_reads := clock_reads b;
     llm_calls := llm_calls b |}.

(** Run a method of [self.preference_manager]. *)
Definition on_manager {A} (c : Eff manager A) : Eff bot A :=
  fun b => let (r, m) := c (preference_manager b) in (r, with_manager m b).

(** [xs[-10:]]. *)
Definition last_ten {A} (xs : list A) : list A :=
  skipn (length xs - 10) xs.

Section Environment.
Variable json_dumps : pyval -> string.
(** The [n]-th value of [str(uuid.uuid4())] and of
    [datetime.datetime.now().isoformat()]. *)
Variable uuid4 : nat -> string.
Variable now_isoformat : nat -> string.
(** [LLMService.generate_response]: what the [n]-th call answers to
    the given messages (an error text when the service failed; [None]
    when the answer has no content).  It never raises. *)
Variable generate_response : nat -> list chat_message -> option string.
(** The constant [ELICITATION_SYSTEM_PROMPT], and
    [PREFERENCE_EXTRACTION_PROMPT.format(user_message=...)]. *)
Variable ELICITATION_SYSTEM_PROMPT : string.
Variable extraction_prompt : string -> string.

Definition draw_uuid : Eff bot string :=
  fun b => (Ok (uuid4 (uuids_drawn b)),
            {| preference_manager := preference_manager b;
               conversations := conversations b;
               uuids_drawn := S (uuids_drawn b);
               clock_reads := clock_reads b;
               llm_calls := llm_calls b |}).

(** [self.preference_manager.get_timestamp()]. *)
Definition get_timestamp : Eff bot string :=
  fun b => (Ok (now_isoformat (clock_reads b)),
            {| preference_manager := preference_manager b;
               conversations := conversations b;
               uuids_drawn := uuids_drawn b;
               clock_reads := S (clock_reads b);
               llm_calls := llm_calls b |}).

Definition llm_generate_response (messages : list chat_message)
  : Eff bot (option string) :=
  fun b => (Ok (generate_response (llm_calls b) messages),
            {| preference_manager := preference_manager b;
               conversations := conversations b;
               uuids_drawn := uuids_drawn b;
               clock_reads := clock_reads b;
               llm_calls := S (llm_calls b) |}).

(** [self.preference_manager.add_preference(text, source)]: the call
    draws the uuid of the new record, then runs. *)
Definition manager_add_preference (preference_text : pyval)
    (source : string) : Eff bot pyval :=
  new_id <- draw_uuid ;;
  on_manager (add_preference json_dumps preference_text source new_id).

Definition save_preference (preference_text : string) (source : string)
  : Eff bot pyval :=
  if (len preference_text =? 0)%nat
     || (len (strip preference_text) <? 3)%nat
  then ret PNone
  else
    id <- draw_uuid ;;
    ts <- get_timestamp ;;
    let preference := PDict [("id", PStr id);
                             ("text", PStr preference_text);
                             ("source", PStr source);
                             ("timestamp", PStr ts)] in
    manager_add_preference preference "manual_chat" ;;;
    ret preference.

Definition get_preferences : Eff bot pyval :=
  on_manager PreferenceManager.get_preferences.

Definition _extract_preference_from_response (user_message : string)
  : Eff bot (option string) :=
  try_except
    (let messages :=
       [ {| role := "system";
            content := Some "You extract user preferences from messages. Output only the preference in the requested format." |};
         {| role := "user";
            content := Some (extraction_prompt user_message) |} ] in
     extraction_response <- llm_generate_response messages ;;
     (* [re.search] on [None] raises [TypeError] *)
     text <- match extraction_response with
             | Some t => ret t
             | None => raise TypeError
             end ;;
     match search false preference_line text with
     | Some m =>
         match group_str m 1 with
         | Some g =>
             let preference := strip g in
             ret (if String.eqb preference "NONE" then None
                  else Some preference)
         | None => raise AttributeError
         end
     | None => ret None
     end)
    (fun _ => ret None).

(** [process_message] with the extraction step as a parameter: the
    method calls whatever [self._extract_preference_from_response]
    is bound to. *)
Definition process_message_with
    (extract : string -> Eff bot (option string))
    (user_id message : string)
  : Eff bot (option string * option string) :=
  b <- get ;;
  let history := default [] (conversations b !! user_id) in
  put (with_conversations
         (<[user_id := (history ++ [ {| role := "user";
                                        content := Some message |} ])%list]>
            (conversations b)) b) ;;;
  let pattern_preferences := _extract_preferences_with_pattern message in
  for_each pattern_preferences
    (fun pref => save_preference pref "pattern_detected" ;;; ret tt) ;;;
  detected_preference <-
    try_except
      (llm_preference <- extract message ;;
       match llm_preference with
       | Some p =>
           if negb (len p =? 0)%nat && negb (String.eqb p "NONE") then
             save_preference p "llm_detected" ;;; ret (Some p)
           else ret (hd_error pattern_preferences)
       | None => ret (hd_error pattern_preferences)
       end)
      (fun _ => ret (hd_error pattern_preferences)) ;;
  b <- get ;;
  let history := default [] (conversations b !! user_id) in
  let messages :=
    {| role := "system"; content := Some ELICITATION_SYSTEM_PROMPT |}
    :: last_ten history in
  response <- llm_generate_response messages ;;
  b <- get ;;
  let history := default [] (conversations b !! user_id) in
  put (with_conversations
         (<[user_id := (history ++ [ {| role := "assistant";
                                        content := response |} ])%list]>
            (conversations b)) b) ;;;
  ret (response, detected_preference).

Definition process_message : string -> string
    -> Eff bot (option string * option string) :=
  process_message_with _extract_preference_from_response.


(** *** Vocabulary for the properties of [process_message] *)

(** The messages of the extraction call. *)
Definition extraction_messages (user_message : string)
  : list chat_message :=
  [ {| role := "system";
       content := Some "You extract user preferences from messages. Output only the preference in the requested format." |};
    {| role := "user";
       content := Some (extraction_prompt user_message) |} ].


End Environment.

(** The preference [_extract_preference_from_response] reads off an
    answer of the language model. *)
Definition preference_of_reply (reply : option string) : option string :=
  match reply with
  | None => None
  | Some text =>
      match search false preference_line text with
      | Some m =>
          match group_str m 1 with
          | Some g => if String.eqb (strip g) "NONE" then None
                      else Some (strip g)
          | None => None
          end
      | None => None
      end
  end.

(** The texts [save_preference] lets through. *)
Definition valid_text (t : string) : bool :=
  negb (len t =? 0)%nat && negb (len (strip t) <? 3)%nat.

(** The LLM preference [process_message] goes on to save. *)
Definition usable (llm_preference : option string) : list string :=
  match llm_preference with
  | Some p => if negb (len p =? 0)%nat && negb (String.eqb p "NONE")
              then [p] else []
  | None => []
  end.

(** A stored record carries the text [t]: [t] is its [text], or the
    [text] of the record found under its [text]. *)
Definition carries (r : pyval) (t : string) : Prop :=
  py_get r "text" = Ok (PStr t)
  \/ exists inner, py_get r "text" = Ok inner
                   /\ py_get inner "text" = Ok (PStr t).

(** The manager [m'] is [m] after the texts of [texts] that
    [save_preference] lets through were stored, one record each and in
    their order, and the file rewritten if there was any. *)
Definition saved_through (json_dumps : pyval -> string)
    (texts : list string) (m m' : manager) : Prop :=
  exists l news,
    preferences m = PList l
    /\ preferences m' = PList (l ++ news)%list
    /\ Forall2 carries news (List.filter valid_text texts)
    /\ (news = [] -> m' = m)
    /\ (news <> [] -> storage m' = Some (json_dumps (PList (l ++ news)%list))).

(** *** The methods that read the store back *)

Section Prompts.
Variable json_dumps : pyval -> string.
Variable uuid4 : nat -> string.
Variable now_isoformat : nat -> string.
Variable generate_response : nat -> list chat_message -> option string.
Variable extraction_prompt : string -> string.
(** [INFERENCE_SYSTEM_PROMPT.format(preferences=...)]. *)
Variable inference_prompt : string -> string.
(** What an f-string writes for a value that is not a string (its
    [repr]). *)
Variable py_repr : pyval -> string.

(** [f"{v}"]. *)
Definition py_format (v : pyval) : string :=
  match v with
  | PStr s => s
  | _ => py_repr v
  end.

(** [for pref in items: formatted += f"- {pref['text']}\n"]. *)
Fixpoint format_lines (items : list pyval) (formatted : string)
  : result string :=
  match items with
  | [] => Ok formatted
  | pref :: items' =>
      match py_item pref "text" with
      | Raise e => Raise e
      | Ok v =>
          format_lines items'
            (formatted +:+ "- " +:+ py_format v +:+ String newline "")
      end
  end.

Definition _format_preferences_for_prompt : Eff bot string :=
  preferences <- get_preferences ;;
  if negb (py_truthy preferences)
  then ret "No preferences have been learned yet."
  else
    items <- lift_result (py_iter preferences) ;;
    lift_result (format_lines items "").

(** [[f"- {pref['text']}" for pref in items]]. *)
Fixpoint preference_texts (items : list pyval) : result (list string) :=
  match items with
  | [] => Ok []
  | pref :: items' =>
      match py_item pref "text" with
      | Raise e => Raise e
      | Ok v =>
          match preference_texts items' with
          | Raise e => Raise e
          | Ok texts => Ok (("- " +:+ py_format v) :: texts)
          end
      end
  end.

Definition process_inference_message (message : string)
  : Eff bot (option string) :=
  let pattern_preferences := _extract_preferences_with_pattern message in
  for_each pattern_preferences
    (fun pref => save_preference json_dumps uuid4 now_isoformat
                   pref "inference_pattern" ;;; ret tt) ;;;
  try_except
    (llm_preference <- _extract_preference_from_response
                         generate_response extraction_prompt message ;;
     match llm_preference with
     | Some p =>
         if negb (len p =? 0)%nat && negb (String.eqb p "NONE") then
           save_preference json_dumps uuid4 now_isoformat
             p "inference_llm" ;;; ret tt
         else ret tt
     | None => ret tt
     end)
    (fun _ => ret tt) ;;;
  preferences <- get_preferences ;;
  items <- lift_result (py_iter preferences) ;;
  texts <- lift_result (preference_texts items) ;;
  let preferences_formatted :=
    match texts with
    | [] => "No preferences known yet."
    | _ => str_join (String newline "") texts
    end in
  let messages :=
    [ {| role := "system";
         content := Some (inference_prompt preferences_formatted) |};
      {| role := "user"; content := Some message |} ] in
  llm_generate_response generate_response messages.

End Prompts.

(** One line per text, as [_format_preferences_for_prompt] lays them
    out. *)
Definition prompt_lines (texts : list string) : string :=
  fold_right (fun t rest => "- " +:+ t +:+ String newline rest) "" texts.

(** *** Story prompts *)

Definition STORY_PROMPT_QUESTIONS : list string := [
  "What's a favorite memory from your childhood?";
  "Tell me about a place you've visited that left an impression on you.";
  "What's something you're looking forward to in the near future?";
  "What's a hobby or activity that brings you joy?";
  "Tell me about a book, movie, or show that you enjoyed recently.";
  "What's a typical day like for you?";
  "What's something you're passionate about?";
  "What's a challenge you've overcome that you're proud of?";
  "If you could travel anywhere, where would you go and why?";
  "What's your ideal way to spend a free day?"
].

(** [random.choice(seq)]: the item at a random index below the length;
    [r] is the random number drawn, any index can come out of it.  An
    empty sequence is an [IndexError]. *)
Definition random_choice (r : nat) (seq : list string) : result string :=
  match seq !! (r mod length seq)%nat with
  | Some x => Ok x
  | None => Raise (OtherError "IndexError")
  end.

(** [_get_story_prompt] works on [self.story_prompts_used] alone, a
    set of strings; that set is the state here. *)
Definition _get_story_prompt (r : nat) : Eff (gset string) string :=
  used <- get ;;
  let available_prompts :=
    List.filter (fun q => negb (bool_decide (q ∈ used)))
                STORY_PROMPT_QUESTIONS in
  available_prompts <-
    match available_prompts with
    | [] => put ∅ ;;; ret STORY_PROMPT_QUESTIONS
    | _ => ret available_prompts
    end ;;
  prompt <- lift_result (random_choice r available_prompts) ;;
  used <- get ;;
  put ({[ prompt ]} ∪ used) ;;;
  ret prompt.

(** The prompts of a run of calls, one random number per call. *)
Fixpoint story_prompts (rs : list nat) : Eff (gset string) (list string) :=
  match rs with
  | [] => ret []
  | r :: rs' =>
      prompt <- _get_story_prompt r ;;
      prompts <- story_prompts rs' ;;
      ret (prompt :: prompts)
  end.

End ElicitationBot.

(** ** core/llm_services.py *)

Module LLMService.
Import ElicitationBot.

Section Service.
(** The [n]-th call of the chat-completion API on the given messages,
    followed by [response.choices[0].message.content]: the content, or
    the exception raised on the way. *)
Variable create : nat -> list chat_message -> result (option string).
(** [str(e)]. *)
Variable describe : exn -> string.

Definition generate_response (n : nat) (messages : list chat_message)
  : option string :=
  match create n messages with
  | Ok content => content
  | Raise e => Some ("Error generating response: " +:+ describe e)
  end.

End Service.

End LLMService.

(** ** app.py: the two managers of a session

    A session holds [st.session_state.preference_manager] and, inside
    [st.session_state.bot], a second [PreferenceManager]; both are made
    from the same file when the session starts.  The sidebar shows
    [bot.get_preferences()]; its delete button calls
    [delete_preference] of the first manager. *)

Module App.
Import PreferenceManager.

Record session : Type := {
  sidebar_preferences : pyval;   (* the list of [session_state.preference_manager] *)
  bot_preferences : pyval;       (* the list of the bot's manager *)
  preferences_file : option string
}.

(** Run a method of [st.session_state.preference_manager] on the file
    as it is now. *)
Definition as_sidebar {A} (c : Eff manager A) : Eff session A :=
  fun s =>
    let (r, m) := c {| preferences := sidebar_preferences s;
                       storage := preferences_file s |} in
    (r, {| sidebar_preferences := preferences m;
           bot_preferences := bot_preferences s;
           preferences_file := storage m |}).

(** Run a method of the bot's manager on the file as it is now. *)
Definition as_bot {A} (c : Eff manager A) : Eff session A :=
  fun s =>
    let (r, m) := c {| preferences := bot_preferences s;
                       storage := preferences_file s |} in
    (r, {| sidebar_preferences := sidebar_preferences s;
           bot_preferences := preferences m;
           preferences_file := storage m |}).

(** What the session does to the store: the bot adds a record (every
    save of the bot ends in [add_preference] of its manager), or the
    user presses the delete button of a displayed preference. *)
Inductive action : Type :=
| BotAdds (preference_text : pyval) (source new_id : string)
| DeleteButton (pref_id : string).

Section Session.
Variable json_dumps : pyval -> string.
Variable read_text : string -> result string.
Variable json_loads : string -> result pyval.

(** The first run of the script: [PreferenceManager()] for the
    sidebar, then [ElicitationBot()], which makes a manager of its
    own; both load the file, and an exception of either ends the run. *)
Definition start (file : option string) : result session :=
  match __init__ read_text json_loads file with
  | Ok sidebar =>
      match __init__ read_text json_loads file with
      | Ok own =>
          Ok {| sidebar_preferences := preferences sidebar;
                bot_preferences := preferences own;
                preferences_file := file |}
      | Raise e => Raise e
      end
  | Raise e => Raise e
  end.

Definition act (a : action) : Eff session pyval :=
  match a with
  | BotAdds t s i => as_bot (add_preference json_dumps t s i)
  | DeleteButton i =>
      deleted <- as_sidebar (delete_preference json_dumps i) ;;
      ret (PBool deleted)
  end.

(** The session after some actions, each taken whatever it did. *)
Definition after (actions : list action) (s : session) : session :=
  fold_left (fun s a => snd (act a s)) actions s.

(** What the sidebar displays. *)
Definition displayed (s : session) : list pyval :=
  match bot_preferences s with
  | PList l => l
  | _ => []
  end.


End Session.

End App.

(** ** test_preferences.py *)

Module TestScript.
Import PreferenceManager.

Section Script.
Variable json_dumps : pyval -> string.
Variable read_text : string -> result string.
Variable json_loads : string -> result pyval.

(** [add_test_preference()], from the content of the file to its new
    content; [new_id] is the uuid the call draws.  Its [except] names
    [Exception]: whatever reading or parsing raises, the list starts
    empty. *)
Definition add_test_preference (file : option string) (new_id : string)
  : result (option string) :=
  let preferences :=
    match file with
    | None => PList []
    | Some bytes =>
        match read_text bytes with
        | Ok text =>
            let content := strip text in
            if negb (len content =? 0)%nat && negb (String.eqb content "{}")
            then match json_loads content with
                 | Ok v => v
                 | Raise _ => PList []
                 end
            else PList []
        | Raise _ => PList []
        end
    end in
  match py_len preferences with
  | Raise e => Raise e
  | Ok n =>
      let new_pref :=
        PDict [("text", PStr ("Test preference " +:+ pretty (n + 1)%nat));
               ("source", PStr "test_script");
               ("id", PStr new_id)] in
      match preferences with
      | PList l => Ok (Some (json_dumps (PList (l ++ [new_pref])%list)))
      | _ => Raise AttributeError
      end
  end.

End Script.

End TestScript.

(** ** A JSON codec for the modelled values

    The manager and the bot are stated over any serializer and parser.
    This module gives one of each, for running the model on examples:
    [dumps] lays a value out as [json.dumps(v, indent=2)] does, [loads]
    reads JSON text back (integers only, code points below 256) and
    raises what [json.loads] raises. *)

Module Json.
#[local] Open Scope list_scope.

Definition dq : ascii := ascii_of_nat 34.      (* the double quote *)
Definition bslash : ascii := ascii_of_nat 92.  (* the backslash *)
Definition nl : ascii := ascii_of_nat 10.

Definition hex_digit (n : nat) : ascii :=
  ascii_of_nat (if (n <? 10)%nat then 48 + n else 87 + n).

(** One character inside a JSON string, with [ensure_ascii] on. *)
Definition escape_char (c : ascii) : list ascii :=
  let n := nat_of_ascii c in
  if (n =? 34)%nat then [bslash; dq]
  else if (n =? 92)%nat then [bslash; bslash]
  else if (n =? 10)%nat then [bslash; "n"%char]
  else if (n =? 13)%nat then [bslash; "r"%char]
  else if (n =? 9)%nat then [bslash; "t"%char]
  else if (n =? 8)%nat then [bslash; "b"%char]
  else if (n =? 12)%nat then [bslash; "f"%char]
  else if (32 <=? n)%nat && (n <=? 126)%nat then [c]
  else [bslash; "u"%char; "0"%char; "0"%char;
        hex_digit (n / 16); hex_digit (n mod 16)].

Definition quote (s : string) : list ascii :=
  dq :: flat_map escape_char (list_ascii_of_string s) ++ [dq].

Definition indent (depth : nat) : list ascii := repeat " "%char (2 * depth).

Fixpoint join (sep : list ascii) (parts : list (list ascii)) : list ascii :=
  match parts with
  | [] => []
  | [p] => p
  | p :: parts' => p ++ sep ++ join sep parts'
  end.

Definition block (open close : ascii) (depth : nat)
    (items : list (list ascii)) : list ascii :=
  match items with
  | [] => [open; close]
  | _ => open :: nl :: indent (S depth)
         ++ join ("," %char :: nl :: indent (S depth)) items
         ++ nl :: indent depth ++ [close]
  end.

Fixpoint dumps_at (depth : nat) (v : pyval) : list ascii :=
  match v with
  | PNone => list_ascii_of_string "null"
  | PBool true => list_ascii_of_string "true"
  | PBool false => list_ascii_of_string "false"
  | PInt z => list_ascii_of_string (pretty z)
  | PStr s => quote s
  | PList l => block "["%char "]"%char depth (map (dumps_at (S depth)) l)
  | PDict d =>
      block "{"%char "}"%char depth
        (map (fun kv => match kv with
                        | (k, x) => quote k ++ ":"%char :: " "%char
                                    :: dumps_at (S depth) x
                        end) d)
  end.

(** [json.dumps(v, indent=2)]. *)
Definition dumps (v : pyval) : string := string_of_list_ascii (dumps_at 0 v).

(** *** Reading *)

Definition is_ws (c : ascii) : bool :=
  let n := nat_of_ascii c in
  (n =? 32)%nat || (n =? 9)%nat || (n =? 10)%nat || (n =? 13)%nat.

Fixpoint skip_ws (s : list ascii) : list ascii :=
  match s with
  | c :: s' => if is_ws c then skip_ws s' else s
  | [] => []
  end.

Fixpoint expect (w s : list ascii) : option (list ascii) :=
  match w, s with
  | [], _ => Some s
  | a :: w', b :: s' => if Ascii.eqb a b then expect w' s' else None
  | _ :: _, [] => None
  end.

Definition hex_value (c : ascii) : option nat :=
  let n := nat_of_ascii c in
  if (48 <=? n)%nat && (n <=? 57)%nat then Some (n - 48)
  else if (97 <=? n)%nat && (n <=? 102)%nat then Some (n - 87)
  else if (65 <=? n)%nat && (n <=? 70)%nat then Some (n - 55)
  else None.

(** The characters of a string, after its opening quote. *)
Fixpoint string_body (s acc : list ascii) : option (string * list ascii) :=
  match s with
  | [] => None
  | c :: s' =>
      if Ascii.eqb c dq then Some (string_of_list_ascii (rev acc), s')
      else if Ascii.eqb c bslash then
        match s' with
        | "u"%char :: "0"%char :: "0"%char :: h1 :: h2 :: s'' =>
            match hex_value h1, hex_value h2 with
            | Some a, Some b => string_body s'' (ascii_of_nat (16 * a + b) :: acc)
            | _, _ => None
            end
        | e :: s'' =>
            let plain (x : ascii) := string_body s'' (x :: acc) in
            if Ascii.eqb e dq then plain dq
            else if Ascii.eqb e bslash then plain bslash
            else if Ascii.eqb e "/"%char then plain "/"%char
            else if Ascii.eqb e "n"%char then plain nl
            else if Ascii.eqb e "r"%char then plain (ascii_of_nat 13)
            else if Ascii.eqb e "t"%char then plain (ascii_of_nat 9)
            else if Ascii.eqb e "b"%char then plain (ascii_of_nat 8)
            else if Ascii.eqb e "f"%char then plain (ascii_of_nat 12)
            else None
        | [] => None
        end
      else if (nat_of_ascii c <? 32)%nat then None
      else string_body s' (c :: acc)
  end.

Definition is_digit (c : ascii) : bool :=
  (48 <=? nat_of_ascii c)%nat && (nat_of_ascii c <=? 57)%nat.

Fixpoint digits (s : list ascii) (acc : Z) : Z * list ascii :=
  match s with
  | c :: s' =>
      if is_digit c
      then digits s' (10 * acc + Z.of_nat (nat_of_ascii c - 48))%Z
      else (acc, s)
  | [] => (acc, [])
  end.

(** What [json.loads] raises on text that is not JSON. *)
Definition syntax_error {A} : result A := Raise (OtherError "JSONDecodeError").

Section Reader.
(** [sys.get_int_max_str_digits()]: the longest run of digits that
    [int] converts; 0 lifts the limit. *)
Variable max_str_digits : nat.

(** Whether the digits go on as a fraction ([.] and a digit) or as an
    exponent ([e] or [E], a sign or none, and a digit). *)
Definition fraction_follows (rest : list ascii) : bool :=
  match rest with
  | c :: d :: rest' =>
      (Ascii.eqb c "."%char && is_digit d)
      || ((Ascii.eqb c "e"%char || Ascii.eqb c "E"%char)
          && (is_digit d
              || ((Ascii.eqb d "+"%char || Ascii.eqb d "-"%char)
                  && match rest' with
                     | x :: _ => is_digit x
                     | [] => false
                     end)))
  | _ => false
  end.

(** An integer literal.  A zero that a digit follows ends the number,
    and no value can end there; numbers with a fraction or an exponent
    are left out, and read as text that is not JSON.  The literal is
    converted as soon as it has been read, and a literal with more
    digits than the limit raises [ValueError]. *)
Definition number (s : list ascii) : result (Z * list ascii) :=
  match s with
  | c :: s' =>
      if is_digit c then
        let (z, rest) := digits s 0%Z in
        let leading_zero := Ascii.eqb c "0"%char
                            && match s' with
                               | d :: _ => is_digit d
                               | [] => false
                               end in
        if leading_zero || fraction_follows rest then syntax_error
        else if (0 <? max_str_digits)%nat
                && (max_str_digits <? length s - length rest)%nat
        then Raise (OtherError "ValueError")
        else Ok (z, rest)
      else syntax_error
  | [] => syntax_error
  end.

(** A repeated key keeps its first place and takes the last value. *)
Fixpoint dict_set (d : list (string * pyval)) (k : string) (v : pyval)
  : list (string * pyval) :=
  match d with
  | [] => [(k, v)]
  | (k', v') :: d' =>
      if String.eqb k' k then (k', v) :: d' else (k', v') :: dict_set d' k v
  end.

(** The word [w] in full, standing for the value [v]. *)
Definition word (w : string) (v : pyval) (s : list ascii)
  : result (pyval * list ascii) :=
  match expect (list_ascii_of_string w) s with
  | Some rest => Ok (v, rest)
  | None => syntax_error
  end.

Fixpoint value (fuel : nat) (s : list ascii) : result (pyval * list ascii) :=
  match fuel with
  | 0 => syntax_error
  | S fuel' =>
      match skip_ws s with
      | [] => syntax_error
      | c :: s1 =>
          if Ascii.eqb c "n"%char then word "ull" PNone s1
          else if Ascii.eqb c "t"%char then word "rue" (PBool true) s1
          else if Ascii.eqb c "f"%char then word "alse" (PBool false) s1
          else if Ascii.eqb c dq then
            match string_body s1 [] with
            | Some (str, rest) => Ok (PStr str, rest)
            | None => syntax_error
            end
          else if Ascii.eqb c "["%char then
            match skip_ws s1 with
            | "]"%char :: rest => Ok (PList [], rest)
            | _ => elements fuel' s1 []
            end
          else if Ascii.eqb c "{"%char then
            match skip_ws s1 with
            | "}"%char :: rest => Ok (PDict [], rest)
            | _ => members fuel' s1 []
            end
          else if Ascii.eqb c "-"%char then
            match number s1 with
            | Ok (z, rest) => Ok (PInt (- z), rest)
            | Raise e => Raise e
            end
          else
            match number (c :: s1) with
            | Ok (z, rest) => Ok (PInt z, rest)
            | Raise e => Raise e
            end
      end
  end
with elements (fuel : nat) (s : list ascii) (acc : list pyval)
  : result (pyval * list ascii) :=
  match fuel with
  | 0 => syntax_error
  | S fuel' =>
      match value fuel' s with
      | Ok (v, s1) =>
          match skip_ws s1 with
          | ","%char :: s2 => elements fuel' s2 (v :: acc)
          | "]"%char :: s2 => Ok (PList (rev (v :: acc)), s2)
          | _ => syntax_error
          end
      | Raise e => Raise e
      end
  end
with members (fuel : nat) (s : list ascii) (acc : list (string * pyval))
  : result (pyval * list ascii) :=
  match fuel with
  | 0 => syntax_error
  | S fuel' =>
      match skip_ws s with
      | c :: s1 =>
          if Ascii.eqb c dq then
            match string_body s1 [] with
            | Some (k, s2) =>
                match skip_ws s2 with
                | ":"%char :: s3 =>
                    match value fuel' s3 with
                    | Ok (v, s4) =>
                        match skip_ws s4 with
                        | ","%char :: s5 => members fuel' s5 (dict_set acc k v)
                        | "}"%char :: s5 => Ok (PDict (dict_set acc k v), s5)
                        | _ => syntax_error
                        end
                    | Raise e => Raise e
                    end
                | _ => syntax_error
                end
            | None => syntax_error
            end
          else syntax_error
      | [] => syntax_error
      end
  end.

(** [json.loads] under the given digit limit: one value, then nothing
    but white space.  Every call of the parser eats a character before
    it calls on, so twice the length of the text is fuel enough. *)
Definition loads_with (text : string) : result pyval :=
  let s := list_ascii_of_string text in
  match value (2 * length s + 2) s with
  | Ok (v, rest) =>
      match skip_ws rest with
      | [] => Ok v
      | _ => syntax_error
      end
  | Raise e => Raise e
  end.

End Reader.

(** [json.loads] as the interpreter starts: the limit is 4300 digits.
    Nesting is taken to stay below the recursion limit. *)
Definition loads : string -> result pyval := loads_with 4300.

End Json.

(** ** A concrete environment, for examples *)

Module Demo.
Import ElicitationBot.

Definition uuid4 (n : nat) : string := "uuid-" +:+ pretty n.
Definition now_isoformat (n : nat) : string :=
  "2025-01-01T00:00:0" +:+ pretty n.

(** Whether a request to the language model is the extraction call:
    that call opens with its own system message. *)
Definition is_extraction_call (messages : list chat_message) : bool :=
  match messages with
  | {| content := Some c |} :: _ =>
      String.eqb c "You extract user preferences from messages. Output only the preference in the requested format."
  | _ => false
  end.

(** A language model that answers every extraction call with [answer],
    and chats back otherwise. *)
Definition generate_fixed (answer : string) (n : nat)
    (messages : list chat_message) : option string :=
  if is_extraction_call messages then Some answer else Some "Tell me more!".

Definition generate_response : nat -> list chat_message -> option string :=
  generate_fixed "PREFERENCE: enjoys long walks".

Definition system_prompt : string := "You are a friendly assistant.".
Definition extraction_prompt (user_message : string) : string :=
  "USER MESSAGE: " +:+ user_message.

(** Reading a file under a one-byte encoding (Latin-1), where every
    byte is a character and no read fails; ASCII text reads the same
    under UTF-8. *)
Definition read_text (content : string) : result string := Ok content.

(** A bot that has just been made with a manager. *)
Definition bot_of (m : PreferenceManager.manager) : bot :=
  {| preference_manager := m;
     conversations := ∅;
     uuids_drawn := 0; clock_reads := 0; llm_calls := 0 |}.

(** A bot that has just been made and found nothing to load. *)
Definition empty_bot (file : option string) : bot :=
  bot_of {| PreferenceManager.preferences := PList [];
            PreferenceManager.storage := file |}.

(** A record as [add_preference] writes it. *)
Definition record (text source id : string) : pyval :=
  PDict [("text", PStr text); ("source", PStr source); ("id", PStr id)].

Definition two_records : list pyval :=
  [record "tea over coffee" "manual_chat" "a1";
   record "long walks" "manual_chat" "b2"].

(** A chat-completion API that is down, and how its error reads. *)
Definition api_down (n : nat) (messages : list chat_message)
  : result (option string) :=
  Raise (OtherError "APIConnectionError").

Definition describe (e : exn) : string :=
  match e with
  | AttributeError => "AttributeError"
  | TypeError => "TypeError"
  | OtherError name => name
  end.

(** A [repr] for examples: strings are never passed to it. *)
Definition repr (v : pyval) : string := Json.dumps v.

Definition inference_prompt (preferences : string) : string :=
  "The user's known preferences are: " +:+ preferences.

Definition sample_store : PreferenceManager.manager :=
  {| PreferenceManager.preferences := PList two_records;
     PreferenceManager.storage := None |}.

(** A settings file in the place of the preference file: a JSON
    object, which loads as a dict. *)
Definition settings : pyval := PDict [("theme", PStr "dark")].

Definition settings_store : PreferenceManager.manager :=
  {| PreferenceManager.preferences := settings;
     PreferenceManager.storage := Some (Json.dumps settings) |}.

(** A JSON document with one integer of [n] digits, all of them 1. *)
Definition long_integer (n : nat) : string :=
  "[" +:+ string_of_list_ascii (repeat "1"%char n) +:+ "]".

End Demo.

(** * The model at work *)

Module Checks.
Import Re PreferenceManager ElicitationBot.

Example strip_both_ends : strip "  ab " = "ab".
Proof. reflexivity. Qed.

Example extract_two_sentences :
  _extract_preferences_with_pattern
    "I really love hiking in the mountains. I hate getting up early!"
  = ["hiking in the mountains"; "getting up early"].
Proof. vm_compute. reflexivity. Qed.

Example extract_ignores_case :
  _extract_preferences_with_pattern "i LIKE pizza a lot" = ["pizza a lot"].
Proof. vm_compute. reflexivity. Qed.

Example extract_needs_six_characters :
  _extract_preferences_with_pattern "I like cats" = [].
Proof. vm_compute. reflexivity. Qed.

(** One sentence can answer to several patterns; the matches come out
    pattern by pattern. *)
Example extract_pattern_by_pattern :
  _extract_preferences_with_pattern
    "I hate when it rains. I want a new bicycle!"
  = ["when it rains"; "a new bicycle"; "it rains"].
Proof. vm_compute. reflexivity. Qed.

Example extract_runs_of_spaces :
  _extract_preferences_with_pattern
    "I   prefer    tea over coffee. It bothers me when people are late"
  = ["tea over coffee"; "people are late"].
Proof. vm_compute. reflexivity. Qed.

Example extract_second_group_unused :
  _extract_preferences_with_pattern "My favorite color is blue and green."
  = [].
Proof. vm_compute. reflexivity. Qed.

Example reply_first_line_only :
  preference_of_reply
    (Some ("Sure! PREFERENCE: likes tea " +:+ String newline "more"))
  = Some "likes tea".
Proof. vm_compute. reflexivity. Qed.

Example reply_none : preference_of_reply (Some "PREFERENCE: NONE") = None.
Proof. vm_compute. reflexivity. Qed.

Example codec_round_trip :
  Json.loads (Json.dumps (PList Demo.two_records))
  = Ok (PList Demo.two_records).
Proof. vm_compute. reflexivity. Qed.

(** The digit limit of [int]: 4300 digits convert, 4301 do not, and
    the literal is converted before the text after it is looked at. *)
Example digit_limit :
  (exists z, Json.loads (Demo.long_integer 4300) = Ok (PList [PInt z]))
  /\ Json.loads (Demo.long_integer 4301) = Raise (OtherError "ValueError")
  /\ Json.loads (Demo.long_integer 4301 +:+ "]")
     = Raise (OtherError "ValueError")
  /\ Json.loads ("]" +:+ Demo.long_integer 4301)
     = Raise (OtherError "JSONDecodeError").
Proof.
  split; [|split; [|split]]; [eexists| | |]; vm_compute; reflexivity.
Qed.

(** What one run has written, the next run loads. *)
Example restart_reloads_list :
  let m := exec Json.dumps (Add (PStr "quiet mornings") "manual_chat" "c3")
                Demo.sample_store in
  __init__ Demo.read_text Json.loads (storage m) = Ok m.
Proof. vm_compute. reflexivity. Qed.

(** The bots of the examples are what the constructor makes: with no
    file, and on a file that holds a JSON object. *)
Example new_bot_without_file :
  __init__ Demo.read_text Json.loads None
  = Ok (preference_manager (Demo.empty_bot None)).
Proof. reflexivity. Qed.

Example settings_file_loads_as_dict :
  __init__ Demo.read_text Json.loads (storage Demo.settings_store)
  = Ok Demo.settings_store.
Proof. vm_compute. reflexivity. Qed.

End Checks.

(** * The monad *)

Module EffFacts.

Lemma bind_ok {S A B} (c : Eff S A) (k : A -> Eff S B) s a s' :
  c s = (Ok a, s') -> bind c k s = k a s'.
Proof. unfold bind. now intros ->. Qed.

(** Run the first statement of a sequence when it returns by
    computation alone ([get], [put], [ret]). *)
Ltac eff_step := erewrite bind_ok by reflexivity.

End EffFacts.

(** * Properties of the preference store *)

Module ManagerFacts.
Import PreferenceManager.
#[local] Open Scope list_scope.

(** ** The list comprehension of [delete_preference] *)

Lemma without_id_ok l pref_id kept :
  without_id l pref_id = Ok kept ->
  kept = List.filter (keeps pref_id) l.
Proof.
  revert kept. induction l as [|p l IH]; intros kept H; simpl in H.
  - now inversion H.
  - destruct p; simpl in H; try discriminate.
    destruct (without_id l pref_id) as [kept'|e]; [|discriminate].
    inversion H; subst kept; clear H.
    rewrite (IH kept' eq_refl). reflexivity.
Qed.

Lemma without_id_dicts (recs : list (list (string * pyval))) pref_id :
  without_id (map PDict recs) pref_id
  = Ok (List.filter (keeps pref_id) (map PDict recs)).
Proof.
  induction recs as [|d recs IH]; simpl; [reflexivity|].
  rewrite IH. reflexivity.
Qed.

Lemma filter_all_kept {A} (f : A -> bool) (l : list A) :
  length (List.filter f l) = length l -> List.filter f l = l.
Proof.
  induction l as [|a l IH]; simpl; [reflexivity|].
  destruct (f a); simpl; intros H.
  - f_equal. apply IH. lia.
  - pose proof (List.filter_length_le f l). lia.
Qed.

Lemma filter_shorter_iff {A} (f : A -> bool) (l : list A) :
  (length (List.filter f l) <? length l)%nat = true
  <-> exists a, In a l /\ f a = false.
Proof.
  rewrite Nat.ltb_lt. induction l as [|a l IH]; simpl.
  - split; [lia | intros (a & [] & _)].
  - pose proof (List.filter_length_le f l) as Hle.
    destruct (f a) eqn:Hfa; simpl; split.
    + intros H. destruct (proj1 IH) as (x & Hx & Hfx); [lia|]. eauto.
    + intros (x & [->|Hx] & Hfx); [congruence|].
      enough (length (List.filter f l) < length l) by lia.
      apply IH. eauto.
    + eauto.
    + lia.
Qed.

Lemma length_zero_empty (s : string) : (len s =? 0)%nat = true <-> s = "".
Proof.
  rewrite Nat.eqb_eq. destruct s; simpl; split; congruence.
Qed.

Lemma ids_app l1 l2 : ids (l1 ++ l2) = ids l1 ++ ids l2.
Proof. unfold ids. apply flat_map_app. Qed.

Lemma ids_filter_incl (f : pyval -> bool) l x :
  In x (ids (List.filter f l)) -> In x (ids l).
Proof.
  induction l as [|p l IH]; simpl; [tauto|].
  destruct (f p); simpl; intros H; apply in_or_app.
  - apply in_app_or in H. tauto.
  - right. now apply IH.
Qed.

Lemma ids_filter_NoDup (f : pyval -> bool) l :
  List.NoDup (ids l) -> List.NoDup (ids (List.filter f l)).
Proof.
  induction l as [|p l IH]; simpl; [trivial|].
  intros H. destruct (f p); simpl.
  - destruct p; simpl in *; try (now apply IH).
    inversion H as [|x xs Hnotin Hnd]; subst.
    constructor; [|now apply IH].
    intros Hx. apply Hnotin. now apply ids_filter_incl in Hx.
  - apply IH. destruct p; simpl in H; trivial.
    now inversion H.
Qed.

Section Loading.
Variable read_text : string -> result string.
Variable json_loads : string -> result pyval.

#[local] Abbreviation init := (__init__ read_text json_loads).

Lemma load_handled_names e :
  load_handled e = true
  <-> e = OtherError "JSONDecodeError" \/ e = OtherError "FileNotFoundError".
Proof.
  destruct e as [| |name]; simpl;
    [split; [discriminate | intros [H|H]; discriminate H] ..|].
  rewrite orb_true_iff, !String.eqb_eq.
  split; (intros [H|H]; [left | right]); congruence.
Qed.

(** What the constructor does with an exception of the load. *)
Lemma init_when_loading_raises c e :
  loading_raises read_text json_loads c e ->
  init (Some c)
  = if load_handled e
    then Ok {| preferences := PList []; storage := Some c |}
    else Raise e.
Proof.
  intros Hraise. unfold __init__, _load_preferences.
  destruct Hraise as [Hread|(text & Hread & Hne & Hbr & Hv)];
    rewrite Hread; cbv zeta.
  - destruct (load_handled e); reflexivity.
  - destruct (len (strip text) =? 0)%nat eqn:E0.
    { apply length_zero_empty in E0. contradiction. }
    destruct (String.eqb (strip text) "{}") eqn:E1.
    { apply String.eqb_eq in E1. contradiction. }
    simpl. rewrite Hv. destruct (load_handled e); reflexivity.
Qed.

(** C6, amended. At start-up the list is what the file holds.  The
    constructor returns a manager with the empty list when there is no
    file, when the text read from the file is blank or reads [{}], and
    when reading or parsing raises [JSONDecodeError] or
    [FileNotFoundError]; with the parsed document when [json.loads]
    returns one.  Any other exception raised by reading or parsing is
    not caught: the constructor raises it. *)
Theorem init_loads_file :
  init None = Ok {| preferences := PList []; storage := None |}
  /\ (forall c text,
        read_text c = Ok text ->
        strip text = "" \/ strip text = "{}" ->
        init (Some c) = Ok {| preferences := PList []; storage := Some c |})
  /\ (forall c text v,
        read_text c = Ok text ->
        strip text <> "" -> strip text <> "{}" ->
        json_loads (strip text) = Ok v ->
        init (Some c) = Ok {| preferences := v; storage := Some c |})
  /\ (forall c e,
        loading_raises read_text json_loads c e ->
        (e = OtherError "JSONDecodeError" \/ e = OtherError "FileNotFoundError" ->
         init (Some c) = Ok {| preferences := PList []; storage := Some c |})
        /\ (e <> OtherError "JSONDecodeError" ->
            e <> OtherError "FileNotFoundError" ->
            init (Some c) = Raise e)).
Proof.
  split; [reflexivity|]. split; [|split].
  - intros c text Hread H. unfold __init__, _load_preferences.
    rewrite Hread. cbv zeta.
    destruct (len (strip text) =? 0)%nat eqn:E0; [reflexivity|].
    destruct (String.eqb (strip text) "{}") eqn:E1; [reflexivity|].
    destruct H as [H|H].
    + apply length_zero_empty in H. congruence.
    + apply String.eqb_eq in H. congruence.
  - intros c text v Hread Hne Hbr Hv. unfold __init__, _load_preferences.
    rewrite Hread. cbv zeta.
    destruct (len (strip text) =? 0)%nat eqn:E0.
    + apply length_zero_empty in E0. contradiction.
    + destruct (String.eqb (strip text) "{}") eqn:E1.
      * apply String.eqb_eq in E1. contradiction.
      * simpl. now rewrite Hv.
  - intros c e Hraise. rewrite (init_when_loading_raises c e Hraise).
    split.
    + intros H. apply load_handled_names in H. now rewrite H.
    + intros H1 H2. destruct (load_handled e) eqn:E; [|reflexivity].
      apply load_handled_names in E. destruct E; contradiction.
Qed.

End Loading.

Section Facts.
Variable json_dumps : pyval -> string.

(** [delete_preference], on a store that is a list, in one equation. *)
Lemma delete_preference_list l file pref_id :
  delete_preference json_dumps pref_id
    {| preferences := PList l; storage := file |}
  = match without_id l pref_id with
    | Raise e => (Raise e, {| preferences := PList l; storage := file |})
    | Ok kept =>
        if (length kept <? length l)%nat
        then (Ok true, {| preferences := PList kept;
                          storage := Some (json_dumps (PList kept)) |})
        else (Ok false, {| preferences := PList kept; storage := file |})
    end.
Proof.
  unfold delete_preference, bind, get, put, lift_result, ret,
    _save_preferences; simpl.
  destruct (without_id l pref_id) as [kept|e]; [|reflexivity].
  destruct (length kept <? length l)%nat; reflexivity.
Qed.

Lemma add_preference_list l file t s new_id :
  add_preference json_dumps t s new_id
    {| preferences := PList l; storage := file |}
  = (Ok (new_record t s new_id),
     {| preferences := PList (l ++ [new_record t s new_id]);
        storage := Some (json_dumps (PList (l ++ [new_record t s new_id]))) |}).
Proof. reflexivity. Qed.

Lemma run_adds (adds : list (pyval * string * string)) :
  forall l file,
    preferences (run json_dumps (map add_of adds)
                     {| preferences := PList l; storage := file |})
    = PList (l ++ map record_of adds).
Proof.
  induction adds as [|[[t s] i] adds IH]; intros l file.
  - simpl. now rewrite app_nil_r.
  - change (run json_dumps (map add_of ((t, s, i) :: adds))
                {| preferences := PList l; storage := file |})
      with (run json_dumps (map add_of adds)
                (snd (add_preference json_dumps t s i
                        {| preferences := PList l; storage := file |}))).
    rewrite add_preference_list. cbn [snd]. rewrite IH, <- app_assoc.
    reflexivity.
Qed.

(** C4. The list is insertion-ordered: [add_preference] returns the new
    record and puts it after the records already there, which stay as
    they were and in their order; [get_preferences] returns the list as
    it stands, so after any run of additions it gives the old records
    followed by the new ones in the order they were added. *)
Theorem add_preference_appends l file t s new_id
    (adds : list (pyval * string * string)) :
  let m := {| preferences := PList l; storage := file |} in
  let m' := run json_dumps (map add_of adds) m in
  fst (add_preference json_dumps t s new_id m) = Ok (new_record t s new_id)
  /\ preferences (snd (add_preference json_dumps t s new_id m))
     = PList (l ++ [new_record t s new_id])
  /\ get_preferences m' = (Ok (PList (l ++ map record_of adds)), m').
Proof.
  cbv zeta. rewrite add_preference_list.
  split; [reflexivity|]. split; [reflexivity|].
  unfold get_preferences, bind, get, ret. now rewrite run_adds.
Qed.

(** C10. On a list of records, [delete_preference] keeps, in their
    order, exactly the records whose [id] is not [pref_id]; it returns
    [True] iff some record had that id; when it returns [False] the
    list and the file are as before. *)
Theorem delete_preference_spec
    (recs : list (list (string * pyval))) file pref_id :
  let l := map PDict recs in
  let m := {| preferences := PList l; storage := file |} in
  exists removed : bool,
    fst (delete_preference json_dumps pref_id m) = Ok removed
    /\ preferences (snd (delete_preference json_dumps pref_id m))
       = PList (List.filter (fun p => negb (has_id pref_id p)) l)
    /\ (removed = true <-> exists p, In p l /\ has_id pref_id p = true)
    /\ (removed = false -> snd (delete_preference json_dumps pref_id m) = m).
Proof.
  cbv zeta. rewrite delete_preference_list, without_id_dicts.
  fold (keeps pref_id).
  pose proof (filter_shorter_iff (keeps pref_id) (map PDict recs)) as Hlt.
  destruct (length (List.filter (keeps pref_id) (map PDict recs))
            <? length (map PDict recs))%nat eqn:E.
  - exists true. simpl. repeat split; try discriminate.
    intros _. destruct (proj1 Hlt eq_refl) as (p & Hp & Hk).
    exists p. split; [assumption|].
    unfold keeps in Hk. now destruct (has_id pref_id p).
  - exists false. simpl. repeat split; try discriminate.
    + intros (p & Hp & Hid).
      assert (false = true); [|discriminate].
      apply Hlt. exists p. split; [assumption|].
      unfold keeps. now rewrite Hid.
    + intros _. f_equal. f_equal. apply filter_all_kept.
      apply Nat.ltb_ge in E.
      pose proof (List.filter_length_le (keeps pref_id) (map PDict recs)).
      lia.
Qed.

(** C5. The file is rewritten wholesale on every mutation: after
    [add_preference], and after a [delete_preference] that made the
    list shorter, the file holds the serialization of the whole list
    as it now is in memory. *)
Theorem mutation_rewrites_file l file t s new_id pref_id :
  let m := {| preferences := PList l; storage := file |} in
  let ma := snd (add_preference json_dumps t s new_id m) in
  let md := snd (delete_preference json_dumps pref_id m) in
  storage ma = Some (json_dumps (preferences ma))
  /\ (length (records md) < length l ->
      storage md = Some (json_dumps (preferences md))).
Proof.
  cbv zeta. split; [reflexivity|].
  rewrite delete_preference_list.
  destruct (without_id l pref_id) as [kept|e] eqn:E; simpl.
  - destruct (length kept <? length l)%nat eqn:Hlt; simpl.
    + reflexivity.
    + apply Nat.ltb_ge in Hlt. unfold records; simpl. lia.
  - unfold records; simpl. lia.
Qed.

(** ** Histories *)

(** A call that raises has not touched the manager, which is why
    [exec] can take the state of a call whatever its outcome. *)
Lemma raising_call_changes_nothing (o : op) (m : manager) :
  match o with
  | Add t s i =>
      forall e m', add_preference json_dumps t s i m = (Raise e, m') -> m' = m
  | Delete i =>
      forall e m', delete_preference json_dumps i m = (Raise e, m') -> m' = m
  end.
Proof.
  destruct m as [prefs file]. destruct o as [t s i|i]; intros e m'.
  - destruct prefs; simpl; intros H; inversion H; reflexivity.
  - unfold delete_preference, bind, get, put, lift_result, ret,
      _save_preferences; simpl.
    destruct (py_len prefs); [|intros H; inversion H; reflexivity].
    destruct (py_iter prefs) as [items|]; [|intros H; inversion H; reflexivity].
    destruct (without_id items i) as [kept|];
      [|intros H; inversion H; reflexivity].
    destruct (_ <? _)%nat; discriminate.
Qed.

Lemma exec_keeps_record (o : op) (m : manager) (r : pyval) :
  In r (records m) ->
  (forall pref_id, o = Delete pref_id -> has_id pref_id r = false) ->
  In r (records (exec json_dumps o m)).
Proof.
  destruct m as [prefs file]. unfold records at 1; simpl.
  destruct prefs as [| | | |l|]; try contradiction.
  intros Hin Hid. destruct o as [t s i|i]; simpl.
  - unfold records; simpl. apply in_or_app. now left.
  - rewrite delete_preference_list.
    destruct (without_id l i) as [kept|e] eqn:E.
    + apply without_id_ok in E. subst kept.
      assert (In r (List.filter (keeps i) l)) as Hk.
      { apply List.filter_In. split; [assumption|].
        unfold keeps. now rewrite (Hid i eq_refl). }
      destruct (_ <? _)%nat; exact Hk.
    + exact Hin.
Qed.

(** C2, as the code has it.  [add_preference] only appends, and
    [delete_preference] removes only records with the id it is given:
    a record stays in the list through every sequence of calls that
    does not delete its id. *)
Theorem records_survive (ops : list op) (m : manager) (r : pyval) :
  In r (records m) ->
  (forall pref_id, In (Delete pref_id) ops -> has_id pref_id r = false) ->
  In r (records (run json_dumps ops m)).
Proof.
  revert m. induction ops as [|o ops IH]; intros m Hin Hid; simpl.
  - exact Hin.
  - apply IH.
    + apply exec_keeps_record; [assumption|].
      intros i ->. apply Hid. now left.
    + intros i Hi. apply Hid. now right.
Qed.

(** C3. Ids stay pairwise distinct: starting from a list without a
    repeated id (the empty list, say), every store reached by
    [add_preference] and [delete_preference] calls is a list without a
    repeated id, as long as every uuid drawn is new to the store. *)
Theorem ids_stay_unique (m0 m : manager) (l0 : list pyval) :
  preferences m0 = PList l0 ->
  List.NoDup (ids l0) ->
  reachable json_dumps m0 m ->
  exists l, preferences m = PList l /\ List.NoDup (ids l).
Proof.
  intros H0 Hnd Hreach.
  induction Hreach as [|m t s new_id _ IH Hfresh|m pref_id _ IH].
  - eauto.
  - destruct IH as (l & Hl & Hndl).
    destruct m as [prefs file]; simpl in Hl; subst prefs.
    exists (l ++ [new_record t s new_id]). split; [reflexivity|].
    rewrite ids_app. simpl.
    apply List.NoDup_app; repeat split; trivial.
    + constructor; [simpl; tauto | constructor].
    + intros x Hx [<-|[]]. now apply Hfresh.
  - destruct IH as (l & Hl & Hndl).
    destruct m as [prefs file]; simpl in Hl; subst prefs.
    simpl. rewrite delete_preference_list.
    destruct (without_id l pref_id) as [kept|e] eqn:E.
    + apply without_id_ok in E. subst kept.
      exists (List.filter (keeps pref_id) l).
      split; [now destruct (_ <? _)%nat|].
      now apply ids_filter_NoDup.
    + eauto.
Qed.

End Facts.

(** ** The store on concrete data *)

Import Demo.

(** C2 as stated fails: [delete_preference] takes a record out of the
    list. *)
Lemma delete_removes_record :
  ~ (forall (ops : list op) (m : manager) (r : pyval),
        In r (records m) -> In r (records (run Json.dumps ops m))).
Proof.
  intros H.
  specialize (H [Delete "a1"] sample_store
                (Demo.record "tea over coffee" "manual_chat" "a1")).
  vm_compute in H.
  destruct H as [H|[]]; [now left | discriminate H].
Qed.

Lemma records_survive_witness :
  In (Demo.record "long walks" "manual_chat" "b2")
     (records (run Json.dumps
                   [Add (PStr "quiet mornings") "manual_chat" "c3";
                    Delete "a1"] sample_store)).
Proof.
  apply records_survive.
  - vm_compute. right. now left.
  - intros i [H|[H|[]]]; [discriminate H|].
    inversion H; subst i. reflexivity.
Defined.

Lemma mutation_rewrites_file_witness :
  let m := sample_store in
  let ma := snd (add_preference Json.dumps (PStr "quiet mornings")
                                "manual_chat" "c3" m) in
  let md := snd (delete_preference Json.dumps "a1" m) in
  storage ma = Some (Json.dumps (preferences ma))
  /\ storage md = Some (Json.dumps (preferences md)).
Proof.
  cbv zeta.
  destruct (mutation_rewrites_file Json.dumps Demo.two_records None
              (PStr "quiet mornings") "manual_chat" "c3" "a1") as [Ha Hd].
  split; [exact Ha|]. apply Hd. vm_compute. lia.
Defined.

(** C6 as stated fails: a file that holds valid JSON, one list with an
    integer of 5000 digits, is not loaded.  The text parses once the
    digit limit of [int] is lifted, and under the limit the interpreter
    starts with, [json.loads] raises [ValueError], which
    [_load_preferences] does not catch: the constructor raises. *)
Lemma init_raises_on_valid_json :
  let c := Demo.long_integer 5000 in
  (exists z, Json.loads_with 0 c = Ok (PList [PInt z]))
  /\ __init__ Demo.read_text Json.loads (Some c)
     = Raise (OtherError "ValueError").
Proof. split; [eexists|]; vm_compute; reflexivity. Qed.

Lemma init_loads_file_witness :
  let init := __init__ Demo.read_text Json.loads in
  let empty c := Ok {| preferences := PList []; storage := Some c |} in
  init (Some "  ") = empty "  "
  /\ init (Some " {} ") = empty " {} "
  /\ init (Some "[1, 2") = empty "[1, 2"
  /\ init (Some " [1, 2] ")
     = Ok {| preferences := PList [PInt 1; PInt 2];
             storage := Some " [1, 2] " |}
  /\ init (Some (Demo.long_integer 4301)) = Raise (OtherError "ValueError").
Proof.
  destruct (init_loads_file Demo.read_text Json.loads)
    as (_ & Hempty & Hload & Hraise).
  cbv zeta. split; [|split; [|split; [|split]]].
  - apply (Hempty _ "  "); [reflexivity | left; reflexivity].
  - apply (Hempty _ " {} "); [reflexivity | right; reflexivity].
  - apply (Hraise "[1, 2" (OtherError "JSONDecodeError")).
    + right. exists "[1, 2".
      split; [reflexivity|]. split; [discriminate|].
      split; [discriminate | reflexivity].
    + left. reflexivity.
  - apply (Hload _ " [1, 2] ");
      [reflexivity | discriminate | discriminate | reflexivity].
  - apply (Hraise (Demo.long_integer 4301) (OtherError "ValueError")).
    + right. exists (Demo.long_integer 4301).
      split; [reflexivity|]. split; [vm_compute; discriminate|].
      split; [vm_compute; discriminate | vm_compute; reflexivity].
    + discriminate.
    + discriminate.
Defined.

Lemma ids_stay_unique_witness :
  exists l,
    preferences (exec Json.dumps (Delete "a1")
                   (exec Json.dumps (Add (PStr "quiet mornings")
                                         "manual_chat" "c3") sample_store))
    = PList l
    /\ List.NoDup (ids l).
Proof.
  apply (ids_stay_unique Json.dumps sample_store _ Demo.two_records).
  - reflexivity.
  - repeat constructor; simpl; intuition discriminate.
  - apply reach_delete. apply reach_add; [apply reach_start|].
    simpl. intuition discriminate.
Defined.

End ManagerFacts.

(** * Properties of the elicitation bot *)

Module BotFacts.
Import PreferenceManager ElicitationBot.
#[local] Open Scope list_scope.

Lemma valid_text_false t :
  valid_text t = false <-> len t = 0 \/ len (strip t) < 3.
Proof.
  unfold valid_text.
  rewrite andb_false_iff, !negb_false_iff, Nat.eqb_eq, Nat.ltb_lt.
  reflexivity.
Qed.

Section Facts.
Variable json_dumps : pyval -> string.
Variable uuid4 : nat -> string.
Variable now_isoformat : nat -> string.
Variable generate_response : nat -> list chat_message -> option string.
Variable ELICITATION_SYSTEM_PROMPT : string.
Variable extraction_prompt : string -> string.

#[local] Abbreviation save := (save_preference json_dumps uuid4 now_isoformat).

Lemma save_preference_invalid t s b :
  valid_text t = false -> save t s b = (Ok PNone, b).
Proof.
  unfold valid_text, save_preference. intros H.
  destruct (len t =? 0)%nat; [reflexivity|].
  destruct (len (strip t) <? 3)%nat; [reflexivity|discriminate].
Qed.

(** What [save_preference] hands to the manager, and what the manager
    stores for it. *)
Lemma save_preference_valid t s b l :
  valid_text t = true ->
  preferences (preference_manager b) = PList l ->
  let preference :=
    PDict [("id", PStr (uuid4 (uuids_drawn b))); ("text", PStr t);
           ("source", PStr s);
           ("timestamp", PStr (now_isoformat (clock_reads b)))] in
  let stored :=
    new_record preference "manual_chat" (uuid4 (S (uuids_drawn b))) in
  save t s b
  = (Ok preference,
     {| preference_manager :=
          {| preferences := PList (l ++ [stored]);
             storage := Some (json_dumps (PList (l ++ [stored]))) |};
        conversations := conversations b;
        uuids_drawn := S (S (uuids_drawn b));
        clock_reads := S (clock_reads b);
        llm_calls := llm_calls b |}).
Proof.
  unfold valid_text, save_preference. intros H Hl.
  destruct (len t =? 0)%nat; [discriminate|].
  destruct (len (strip t) <? 3)%nat; [discriminate|].
  destruct b as [[prefs file] convs nu nc nl]; simpl in Hl. subst prefs.
  reflexivity.
Qed.

(** C9. A text that is empty, or shorter than 3 characters once
    stripped, is turned away: [save_preference] returns [None] and the
    bot, its list and its file are exactly as before. *)
Theorem save_preference_rejects_short t s b :
  len t = 0 \/ len (strip t) < 3 ->
  save t s b = (Ok PNone, b).
Proof.
  intros H. apply save_preference_invalid. now apply valid_text_false.
Qed.

Lemma stored_carries preference_id t s ts new_id :
  carries (new_record (PDict [("id", preference_id); ("text", PStr t);
                              ("source", s); ("timestamp", ts)])
                      "manual_chat" new_id) t.
Proof. right. eexists. split; reflexivity. Qed.

Lemma saved_refl m l :
  preferences m = PList l -> saved_through json_dumps [] m m.
Proof.
  intros Hl. exists l, []. rewrite app_nil_r.
  split; [exact Hl|]. split; [exact Hl|]. split; [constructor|].
  split; [reflexivity | congruence].
Qed.

Lemma saved_trans ts1 ts2 m m1 m2 :
  saved_through json_dumps ts1 m m1 ->
  saved_through json_dumps ts2 m1 m2 ->
  saved_through json_dumps (ts1 ++ ts2) m m2.
Proof.
  intros (l & n1 & Hl & Hl1 & Hc1 & Hnil1 & Hcons1)
         (l' & n2 & Hl' & Hl2 & Hc2 & Hnil2 & Hcons2).
  rewrite Hl1 in Hl'. inversion Hl'; subst l'; clear Hl'.
  exists l, (n1 ++ n2). rewrite List.filter_app, app_assoc.
  split; [exact Hl|]. split; [exact Hl2|].
  split; [now apply Forall2_app|]. split.
  - intros H. apply app_eq_nil in H as [-> ->].
    rewrite Hnil2, Hnil1; reflexivity.
  - intros H. destruct n2 as [|r n2].
    + rewrite app_nil_r in *. rewrite Hnil2 by reflexivity.
      apply Hcons1. exact H.
    + apply Hcons2. discriminate.
Qed.

(** One call of [save_preference] on a store that is a list. *)
Lemma save_step t s b l :
  preferences (preference_manager b) = PList l ->
  exists v b1,
    save t s b = (Ok v, b1)
    /\ saved_through json_dumps [t] (preference_manager b)
                                     (preference_manager b1)
    /\ conversations b1 = conversations b
    /\ llm_calls b1 = llm_calls b.
Proof.
  intros Hl. destruct (valid_text t) eqn:Hv.
  - pose proof (save_preference_valid t s b l Hv Hl) as H. cbv zeta in H.
    eexists _, _. split; [exact H|]. simpl.
    split; [|split; reflexivity].
    exists l, [new_record
                 (PDict [("id", PStr (uuid4 (uuids_drawn b)));
                         ("text", PStr t); ("source", PStr s);
                         ("timestamp", PStr (now_isoformat (clock_reads b)))])
                 "manual_chat" (uuid4 (S (uuids_drawn b)))].
    simpl. rewrite Hv.
    split; [exact Hl|]. split; [reflexivity|].
    split; [constructor; [apply stored_carries | constructor]|].
    split; [discriminate | reflexivity].
  - exists PNone, b. split; [now apply save_preference_invalid|].
    split; [|split; reflexivity].
    pose proof (saved_refl (preference_manager b) l Hl) as (l0 & n0 & H).
    exists l0, n0. simpl. rewrite Hv. exact H.
Qed.

(** The loop [for pref in texts: self.save_preference(pref, source=s)]. *)
Lemma save_each (texts : list string) (s : string) :
  forall b l,
    preferences (preference_manager b) = PList l ->
    exists b',
      for_each texts (fun pref => save pref s ;;; ret tt) b = (Ok tt, b')
      /\ saved_through json_dumps texts (preference_manager b)
                                        (preference_manager b')
      /\ conversations b' = conversations b
      /\ llm_calls b' = llm_calls b.
Proof.
  induction texts as [|t texts IH]; intros b l Hl.
  - exists b. split; [reflexivity|].
    split; [now apply (saved_refl _ l) | split; reflexivity].
  - destruct (save_step t s b l Hl)
      as (v & b1 & Hsave & Hthrough & Hconv1 & Hllm1).
    pose proof Hthrough as (l0 & n1 & Hl0 & Hl1 & _).
    destruct (IH b1 _ Hl1) as (b' & Hrun & Hrest & Hconv & Hllm).
    exists b'. split; [|split; [|split; congruence]].
    + simpl. erewrite EffFacts.bind_ok; [exact Hrun|].
      erewrite EffFacts.bind_ok; [reflexivity | exact Hsave].
    + apply (saved_trans [t] texts _ _ _ Hthrough Hrest).
Qed.

(** The extraction step never raises: whatever the language model
    answers, it returns the preference read off the answer. *)
Lemma extract_returns message b :
  _extract_preference_from_response generate_response extraction_prompt
    message b
  = (Ok (preference_of_reply
           (generate_response (llm_calls b)
              (extraction_messages extraction_prompt message))),
     {| preference_manager := preference_manager b;
        conversations := conversations b;
        uuids_drawn := uuids_drawn b;
        clock_reads := clock_reads b;
        llm_calls := S (llm_calls b) |}).
Proof.
  unfold _extract_preference_from_response, try_except, bind,
    llm_generate_response, preference_of_reply, extraction_messages, ret,
    raise.
  destruct (generate_response _ _) as [text|]; [|reflexivity].
  destruct (Re.search false preference_line text) as [m|]; [|reflexivity].
  destruct (Re.group_str m 1) as [g|]; reflexivity.
Qed.

(** [process_message] on a store that is a list. *)
Lemma process_message_run user_id message b l :
  preferences (preference_manager b) = PList l ->
  let found := _extract_preferences_with_pattern message in
  let llm := preference_of_reply
               (generate_response (llm_calls b)
                  (extraction_messages extraction_prompt message)) in
  exists response detected b' news,
    process_message json_dumps uuid4 now_isoformat generate_response
      ELICITATION_SYSTEM_PROMPT extraction_prompt user_id message b
    = (Ok (response, detected), b')
    /\ preferences (preference_manager b') = PList (l ++ news)
    /\ Forall2 carries news (List.filter valid_text (found ++ usable llm))
    /\ (news <> [] -> storage (preference_manager b')
                      = Some (json_dumps (PList (l ++ news)))).
Proof.
  intros Hl found llm.
  unfold process_message, process_message_with.
  do 2 EffFacts.eff_step.
  match goal with
  | |- context [bind (for_each _ _) _ ?b0] => set (b0' := b0)
  end.
  destruct (save_each found "pattern_detected" b0' l Hl)
    as (b1 & Hrun & Hthrough & Hconv & Hllm).
  fold found.
  erewrite EffFacts.bind_ok by exact Hrun.
  unfold try_except, bind. rewrite extract_returns. cbv beta iota.
  rewrite Hllm. change (llm_calls b0') with (llm_calls b). fold llm.
  change (preference_manager b0') with (preference_manager b) in Hthrough.
  match goal with
  | |- context [match llm with Some _ => _ | None => _ end ?s] =>
      set (b1' := s)
  end.
  match goal with
  | |- context [let (_, _) := ?c b1' in _] => set (step := c)
  end.
  assert (exists detected b2,
             step b1' = (Ok detected, b2)
             /\ saved_through json_dumps (usable llm)
                              (preference_manager b1) (preference_manager b2))
    as (detected & b2 & Hdet & Hthrough2).
  { pose proof Hthrough as (l0 & n1 & _ & Hl1 & _).
    unfold usable. subst step. destruct llm as [p|].
    - destruct (negb (len p =? 0)%nat && negb (String.eqb p "NONE")).
      + destruct (save_step p "llm_detected" b1' _ Hl1)
          as (v & b2 & Hsave & Hthr & _).
        exists (Some p), b2. rewrite Hsave. split; [reflexivity | exact Hthr].
      + exists (hd_error found), b1'.
        split; [reflexivity | exact (saved_refl _ _ Hl1)].
    - exists (hd_error found), b1'.
      split; [reflexivity | exact (saved_refl _ _ Hl1)]. }
  rewrite Hdet.
  destruct (saved_trans _ _ _ _ _ Hthrough Hthrough2)
    as (l' & news & Hl' & Hnews & Hcarry & _ & Hfile).
  rewrite Hl in Hl'. inversion Hl'; subst l'; clear Hl'.
  eexists _, detected, _, news.
  split; [reflexivity|]. split; [exact Hnews|]. split; assumption.
Qed.

(** What the extraction step returns is never the word [NONE], so the
    guard of [process_message] only ever turns the empty text away. *)
Lemma preference_of_reply_not_NONE reply p :
  preference_of_reply reply = Some p -> String.eqb p "NONE" = false.
Proof.
  unfold preference_of_reply.
  destruct reply as [text|]; [|discriminate].
  destruct (Re.search false preference_line text) as [m|]; [|discriminate].
  destruct (Re.group_str m 1) as [g|]; [|discriminate].
  destruct (String.eqb (strip g) "NONE") eqn:E; [discriminate|].
  intros H. inversion H; subst p. exact E.
Qed.

Lemma usable_valid reply :
  List.filter valid_text (usable (preference_of_reply reply))
  = List.filter valid_text (option_list (preference_of_reply reply)).
Proof.
  destruct (preference_of_reply reply) as [p|] eqn:E; [|reflexivity].
  apply preference_of_reply_not_NONE in E.
  unfold usable. rewrite E. simpl.
  destruct (len p =? 0)%nat eqn:E0; [|reflexivity].
  simpl. unfold valid_text. now rewrite E0.
Qed.

(** C7, as the code has it.  [process_message] hands every pattern
    match, and then the preference read off the LLM's answer (there is
    none when the answer says [NONE]), to [save_preference]; each of
    these texts that is non-empty and at least 3 characters long once
    stripped gets one record appended to the store, in that order, and
    the file then holds the whole list; the shorter ones are dropped. *)
Theorem process_message_saves user_id message b l :
  preferences (preference_manager b) = PList l ->
  let found := _extract_preferences_with_pattern message in
  let llm := preference_of_reply
               (generate_response (llm_calls b)
                  (extraction_messages extraction_prompt message)) in
  exists response detected b' news,
    process_message json_dumps uuid4 now_isoformat generate_response
      ELICITATION_SYSTEM_PROMPT extraction_prompt user_id message b
    = (Ok (response, detected), b')
    /\ preferences (preference_manager b') = PList (l ++ news)
    /\ Forall2 carries news (List.filter valid_text (found ++ option_list llm))
    /\ (news <> [] -> storage (preference_manager b')
                      = Some (json_dumps (PList (l ++ news)))).
Proof.
  intros Hl found llm.
  destruct (process_message_run user_id message b l Hl)
    as (response & detected & b' & news & Hrun & Hnews & Hcarry & Hfile).
  exists response, detected, b', news.
  split; [exact Hrun|]. split; [exact Hnews|]. split; [|exact Hfile].
  rewrite List.filter_app in Hcarry |- *.
  subst llm. rewrite <- usable_valid. exact Hcarry.
Qed.




End Facts.

(** ** The bot on concrete data *)

(** C1 fails on the code: [save_preference] passes the record it has
    built as the text of [add_preference], so what is stored has that
    whole record under [text] and the default [manual_chat] as source. *)
Theorem save_preference_nests_record :
  let b := Demo.empty_bot None in
  let r := save_preference Json.dumps Demo.uuid4 Demo.now_isoformat
             "hiking in the mountains" "pattern_detected" b in
  records (preference_manager (snd r))
  = [PDict [("text", PDict [("id", PStr "uuid-0");
                            ("text", PStr "hiking in the mountains");
                            ("source", PStr "pattern_detected");
                            ("timestamp", PStr "2025-01-01T00:00:00")]);
            ("source", PStr "manual_chat");
            ("id", PStr "uuid-1")]].
Proof. vm_compute. reflexivity. Qed.

(** C7 as stated fails: a pattern match and an LLM preference that are
    shorter than 3 characters are extracted, even returned as the
    detected preference, and nothing is stored. *)
Lemma short_preferences_are_dropped :
  let b := Demo.empty_bot None in
  let message := "I love      tv." in
  let r := process_message Json.dumps Demo.uuid4 Demo.now_isoformat
             (Demo.generate_fixed "PREFERENCE: tv") Demo.system_prompt
             Demo.extraction_prompt "user1" message b in
  _extract_preferences_with_pattern message = ["tv"]
  /\ preference_of_reply (Some "PREFERENCE: tv") = Some "tv"
  /\ fst r = Ok (Some "Tell me more!", Some "tv")
  /\ records (preference_manager (snd r)) = []
  /\ storage (preference_manager (snd r)) = None.
Proof. vm_compute. repeat split. Qed.

Lemma save_preference_rejects_short_witness :
  save_preference Json.dumps Demo.uuid4 Demo.now_isoformat
    "  ab " "manual_input" (Demo.empty_bot None)
  = (Ok PNone, Demo.empty_bot None).
Proof.
  apply save_preference_rejects_short. right. vm_compute. lia.
Defined.

Lemma process_message_saves_witness :
  exists response detected b' news,
    process_message Json.dumps Demo.uuid4 Demo.now_isoformat
      Demo.generate_response Demo.system_prompt Demo.extraction_prompt
      "user1" "I really love hiking in the mountains."
      (Demo.empty_bot None)
    = (Ok (response, detected), b')
    /\ preferences (preference_manager b') = PList ([] ++ news)
    /\ Forall2 carries news ["hiking in the mountains"; "enjoys long walks"]
    /\ (news <> [] -> storage (preference_manager b')
                      = Some (Json.dumps (PList ([] ++ news)))).
Proof.
  exact (process_message_saves Json.dumps Demo.uuid4 Demo.now_isoformat
           Demo.generate_response Demo.system_prompt Demo.extraction_prompt
           "user1" "I really love hiking in the mountains."
           (Demo.empty_bot None) [] eq_refl).
Defined.


End BotFacts.

(** * Further properties of the preference store *)

Module StoreFacts.
Import PreferenceManager.
#[local] Open Scope list_scope.

Lemma first_with_id_dicts (recs : list (list (string * pyval))) pref_id :
  first_with_id (map PDict recs) pref_id
  = Ok (default PNone (List.find (has_id pref_id) (map PDict recs))).
Proof.
  induction recs as [|d recs IH]; simpl; [reflexivity|].
  destruct (eq_str (dict_get d "id") pref_id); [reflexivity | exact IH].
Qed.

Lemma get_preference_by_id_list l file pref_id :
  get_preference_by_id pref_id {| preferences := PList l; storage := file |}
  = (first_with_id l pref_id, {| preferences := PList l; storage := file |}).
Proof. reflexivity. Qed.

Lemma has_id_in_ids pref_id p l :
  In p l -> has_id pref_id p = true -> In (PStr pref_id) (ids l).
Proof.
  intros Hin Hid. unfold ids. apply in_flat_map. exists p.
  split; [exact Hin|]. destruct p; try discriminate. simpl in *.
  destruct (dict_get d "id"); try discriminate. simpl in Hid.
  apply String.eqb_eq in Hid. subst. now left.
Qed.

Lemma find_none_fresh pref_id l :
  ~ In (PStr pref_id) (ids l) -> List.find (has_id pref_id) l = None.
Proof.
  intros Hfresh. destruct (List.find (has_id pref_id) l) as [p|] eqn:E;
    [|reflexivity].
  apply List.find_some in E as [Hin Hid].
  exfalso. apply Hfresh. eapply has_id_in_ids; eassumption.
Qed.

Lemma has_id_new_record t s i j :
  has_id j (new_record t s i) = String.eqb i j.
Proof. reflexivity. Qed.

Lemma find_app {A} (f : A -> bool) l1 l2 :
  List.find f (l1 ++ l2)
  = match List.find f l1 with
    | Some x => Some x
    | None => List.find f l2
    end.
Proof.
  induction l1 as [|a l1 IH]; simpl; [reflexivity|].
  now destruct (f a).
Qed.

Lemma find_filter_other {A} (f g : A -> bool) l :
  (forall a, f a = true -> g a = true) ->
  List.find f (List.filter g l) = List.find f l.
Proof.
  intros Hfg. induction l as [|a l IH]; simpl; [reflexivity|].
  destruct (g a) eqn:Hg; simpl.
  - now rewrite IH.
  - destruct (f a) eqn:Hf; [|exact IH].
    apply Hfg in Hf. congruence.
Qed.

Lemma has_id_functional i j p :
  has_id i p = true -> has_id j p = true -> i = j.
Proof.
  destruct p; try discriminate. simpl.
  destruct (dict_get d "id"); try discriminate. simpl.
  intros Hi Hj. apply String.eqb_eq in Hi, Hj. congruence.
Qed.

Section Facts.
Variable json_dumps : pyval -> string.

(** X1. Looking up by id answers for the list as it stands: on a list
    of records [get_preference_by_id] changes nothing and returns either
    a record of the list that has the id, or [None] when no record has
    it. *)
Theorem get_preference_by_id_spec
    (recs : list (list (string * pyval))) file pref_id :
  let l := map PDict recs in
  let m := {| preferences := PList l; storage := file |} in
  exists v,
    get_preference_by_id pref_id m = (Ok v, m)
    /\ ((In v l /\ has_id pref_id v = true)
        \/ (v = PNone /\ forall p, In p l -> has_id pref_id p = false)).
Proof.
  cbv zeta. rewrite get_preference_by_id_list, first_with_id_dicts.
  destruct (List.find (has_id pref_id) (map PDict recs)) as [p|] eqn:E.
  - exists p. split; [reflexivity|]. left.
    apply List.find_some in E. exact E.
  - exists PNone. split; [reflexivity|]. right. split; [reflexivity|].
    intros p Hp. exact (List.find_none _ _ E p Hp).
Qed.

(** X2. Add, then look up: after [add_preference] with an id no record
    had, [get_preference_by_id] of that id returns the record just
    added, and every other id is answered as before the addition. *)
Theorem lookup_after_add
    (recs : list (list (string * pyval))) file t s new_id other :
  let l := map PDict recs in
  let m := {| preferences := PList l; storage := file |} in
  let m' := snd (add_preference json_dumps t s new_id m) in
  ~ In (PStr new_id) (ids l) ->
  other <> new_id ->
  fst (get_preference_by_id new_id m') = Ok (new_record t s new_id)
  /\ fst (get_preference_by_id other m') = fst (get_preference_by_id other m).
Proof.
  cbv zeta. intros Hfresh Hother.
  change (snd (add_preference json_dumps t s new_id
                 {| preferences := PList (map PDict recs); storage := file |}))
    with {| preferences := PList (map PDict recs
                                  ++ map PDict [[("text", t);
                                                 ("source", PStr s);
                                                 ("id", PStr new_id)]]);
            storage := Some (json_dumps
                               (PList (map PDict recs
                                       ++ [new_record t s new_id]))) |}.
  rewrite <- map_app.
  rewrite !get_preference_by_id_list, !first_with_id_dicts. simpl fst.
  rewrite map_app, !find_app.
  rewrite (find_none_fresh new_id _ Hfresh). simpl.
  rewrite String.eqb_refl. simpl. split; [reflexivity|].
  destruct (List.find (has_id other) (map PDict recs)); [reflexivity|].
  destruct (String.eqb new_id other) eqn:E; [|reflexivity].
  apply String.eqb_eq in E. congruence.
Qed.

(** X3. Delete, then look up: after [delete_preference pref_id] on a
    list of records no record answers to [pref_id], and every other id
    is answered as before the deletion. *)
Theorem lookup_after_delete
    (recs : list (list (string * pyval))) file pref_id other :
  let l := map PDict recs in
  let m := {| preferences := PList l; storage := file |} in
  let m' := snd (delete_preference json_dumps pref_id m) in
  other <> pref_id ->
  fst (get_preference_by_id pref_id m') = Ok PNone
  /\ fst (get_preference_by_id other m') = fst (get_preference_by_id other m).
Proof.
  cbv zeta. intros Hother.
  rewrite ManagerFacts.delete_preference_list, ManagerFacts.without_id_dicts.
  assert (exists recs', List.filter (keeps pref_id) (map PDict recs)
                        = map PDict recs') as [recs' Hrecs'].
  { clear. induction recs as [|d recs [recs' IH]]; simpl.
    - now exists [].
    - destruct (keeps pref_id (PDict d)).
      + exists (d :: recs'). simpl. now rewrite IH.
      + now exists recs'. }
  assert (forall file',
             fst (get_preference_by_id pref_id
                    {| preferences := PList (List.filter (keeps pref_id)
                                               (map PDict recs));
                       storage := file' |}) = Ok PNone
             /\ fst (get_preference_by_id other
                       {| preferences := PList (List.filter (keeps pref_id)
                                                  (map PDict recs));
                          storage := file' |})
                = fst (get_preference_by_id other
                         {| preferences := PList (map PDict recs);
                            storage := file |})) as H.
  { intros file'. rewrite !get_preference_by_id_list. simpl fst.
    rewrite Hrecs', !first_with_id_dicts, <- Hrecs'. split.
    - destruct (List.find (has_id pref_id)
                  (List.filter (keeps pref_id) (map PDict recs)))
        as [p|] eqn:E; [|reflexivity].
      apply List.find_some in E as [Hin Hid].
      apply List.filter_In in Hin as [_ Hk].
      unfold keeps in Hk. rewrite Hid in Hk. discriminate.
    - rewrite find_filter_other; [reflexivity|].
      intros p Hp. unfold keeps.
      destruct (has_id pref_id p) eqn:E; [|reflexivity].
      exfalso. apply Hother. exact (has_id_functional _ _ _ Hp E). }
  destruct (_ <? _)%nat; apply H.
Qed.

Lemma without_id_again l i kept j :
  without_id l i = Ok kept ->
  without_id kept j = Ok (List.filter (keeps j) kept).
Proof.
  revert kept. induction l as [|p l IH]; intros kept H; simpl in H.
  - inversion H. reflexivity.
  - destruct p; simpl in H; try discriminate.
    destruct (without_id l i) as [kept'|]; [|discriminate].
    specialize (IH kept' eq_refl).
    destruct (negb (eq_str (dict_get d "id") i));
      inversion H; subst kept; [|exact IH].
    simpl. rewrite IH. reflexivity.
Qed.

Lemma filter_twice {A} (f : A -> bool) l :
  List.filter f (List.filter f l) = List.filter f l.
Proof.
  induction l as [|a l IH]; simpl; [reflexivity|].
  destruct (f a) eqn:E; simpl; [rewrite E, IH|]; trivial.
Qed.

Lemma delete_preference_settled l file pref_id :
  without_id l pref_id = Ok l ->
  delete_preference json_dumps pref_id
    {| preferences := PList l; storage := file |}
  = (Ok false, {| preferences := PList l; storage := file |}).
Proof.
  intros H. rewrite ManagerFacts.delete_preference_list, H.
  now rewrite Nat.ltb_irrefl.
Qed.

(** X4. Deleting is idempotent: whatever the manager holds, a second
    [delete_preference] of the same id leaves it as the first one left
    it; and when the first call returned, the second returns [False]. *)
Theorem delete_twice (m : manager) pref_id :
  let m1 := exec json_dumps (Delete pref_id) m in
  exec json_dumps (Delete pref_id) m1 = m1
  /\ (forall deleted,
        fst (delete_preference json_dumps pref_id m) = Ok deleted ->
        fst (delete_preference json_dumps pref_id m1) = Ok false).
Proof.
  cbv zeta. destruct m as [prefs file]. simpl exec.
  destruct prefs as [| | | s | l | d].
  - split; [reflexivity | discriminate].
  - split; [reflexivity | discriminate].
  - split; [reflexivity | discriminate].
  - destruct s; [split; reflexivity | split; [reflexivity | discriminate]].
  - rewrite ManagerFacts.delete_preference_list.
    destruct (without_id l pref_id) as [kept|e] eqn:E.
    + pose proof (without_id_again _ _ _ pref_id E) as Hagain.
      apply ManagerFacts.without_id_ok in E. subst kept.
      rewrite filter_twice in Hagain.
      destruct (_ <? _)%nat; simpl;
        rewrite (delete_preference_settled _ _ _ Hagain); split; reflexivity.
    + simpl. rewrite ManagerFacts.delete_preference_list, E.
      split; [reflexivity | discriminate].
  - destruct d as [|[k v] d];
      [split; reflexivity | split; [reflexivity | discriminate]].
Qed.

(** X5. An addition and a deletion of another id commute: on a store
    that is a list, adding a record and deleting a different id lead to
    the same list and the same file in either order. *)
Theorem add_delete_commute l file t s new_id pref_id :
  new_id <> pref_id ->
  let m := {| preferences := PList l; storage := file |} in
  exec json_dumps (Delete pref_id) (exec json_dumps (Add t s new_id) m)
  = exec json_dumps (Add t s new_id) (exec json_dumps (Delete pref_id) m).
Proof.
  intros Hne. cbv zeta. unfold exec.
  rewrite ManagerFacts.add_preference_list. cbn [snd].
  rewrite !ManagerFacts.delete_preference_list.
  assert (without_id (l ++ [new_record t s new_id]) pref_id
          = match without_id l pref_id with
            | Ok kept => Ok (kept ++ [new_record t s new_id])
            | Raise e => Raise e
            end) as Happ.
  { clear file. induction l as [|p l IH]; simpl.
    - destruct (String.eqb new_id pref_id) eqn:E; [|reflexivity].
      apply String.eqb_eq in E. contradiction.
    - destruct (py_get p "id") as [v|]; [|reflexivity].
      rewrite IH. destruct (without_id l pref_id); [|reflexivity].
      now destruct (negb (eq_str v pref_id)). }
  rewrite Happ.
  destruct (without_id l pref_id) as [kept|e] eqn:E;
    [|cbn [snd]; now rewrite ManagerFacts.add_preference_list].
  apply ManagerFacts.without_id_ok in E.
  rewrite !length_app. simpl length.
  destruct (length kept <? length l)%nat eqn:Hlt.
  - assert ((length kept + 1 <? length l + 1)%nat = true) as ->.
    { apply Nat.ltb_lt in Hlt. apply Nat.ltb_lt. lia. }
    cbn [snd]. now rewrite ManagerFacts.add_preference_list.
  - assert ((length kept + 1 <? length l + 1)%nat = false) as ->.
    { apply Nat.ltb_ge in Hlt. apply Nat.ltb_ge. lia. }
    assert (kept = l) as ->.
    { subst kept. apply ManagerFacts.filter_all_kept.
      apply Nat.ltb_ge in Hlt.
      pose proof (List.filter_length_le (keeps pref_id) l). lia. }
    cbn [snd]. now rewrite ManagerFacts.add_preference_list.
Qed.

(** X6. The file follows the list: starting from a store that is a
    list, after any sequence of [add_preference] and
    [delete_preference] calls either nothing has changed at all, or the
    file holds the serialization of the whole list as it is in memory. *)
Theorem file_in_sync (ops : list op) l0 file :
  let m0 := {| preferences := PList l0; storage := file |} in
  let m := run json_dumps ops m0 in
  m = m0 \/ storage m = Some (json_dumps (preferences m)).
Proof.
  cbv zeta.
  set (m0 := {| preferences := PList l0; storage := file |}).
  assert (forall ops m,
             (exists l, preferences m = PList l) ->
             m = m0 \/ storage m = Some (json_dumps (preferences m)) ->
             run json_dumps ops m = m0
             \/ storage (run json_dumps ops m)
                = Some (json_dumps (preferences (run json_dumps ops m))))
    as Hinv.
  { clear ops. induction ops as [|o ops IH]; intros m [l Hl] HJ; [exact HJ|].
    simpl. destruct m as [prefs f]. simpl in Hl. subst prefs.
    destruct o as [t s i|i].
    - apply IH; [eexists; reflexivity | right; reflexivity].
    - simpl exec. rewrite ManagerFacts.delete_preference_list.
      destruct (without_id l i) as [kept|e] eqn:E.
      + apply ManagerFacts.without_id_ok in E.
        destruct (length kept <? length l)%nat eqn:Hlt; simpl.
        * apply IH; [eexists; reflexivity | right; reflexivity].
        * assert (kept = l) as ->.
          { subst kept. apply ManagerFacts.filter_all_kept.
            apply Nat.ltb_ge in Hlt.
            pose proof (List.filter_length_le (keeps i) l). lia. }
          apply IH; [eexists; reflexivity | exact HJ].
      + simpl. apply IH; [eexists; reflexivity | exact HJ]. }
  apply Hinv; [exists l0; reflexivity | now left].
Qed.

(** X7. A call that fails changes nothing: when [add_preference] or
    [delete_preference] raises (the store is not a list, or an item of
    it is not a record), the list and the file are exactly as they were
    before the call. *)
Theorem failed_call_changes_nothing (o : op) (m : manager) e m' :
  call json_dumps o m = (Raise e, m') -> m' = m.
Proof.
  destruct m as [prefs file]. destruct o as [t s i|i].
  - destruct prefs; simpl; intros H; inversion H; reflexivity.
  - unfold call, delete_preference, bind, get, put, lift_result, ret,
      _save_preferences; simpl.
    destruct (py_len prefs); [|intros H; inversion H; reflexivity].
    destruct (py_iter prefs) as [items|]; [|intros H; inversion H; reflexivity].
    destruct (without_id items i) as [kept|];
      [|intros H; inversion H; reflexivity].
    destruct (_ <? _)%nat; discriminate.
Qed.

End Facts.

(** ** On concrete data *)

Lemma failed_call_changes_nothing_witness :
  let m := {| preferences := PList [PInt 7];
              storage := Some "[7]" |} in
  snd (call Json.dumps (Delete "a1") m) = m.
Proof.
  cbv zeta.
  apply (failed_call_changes_nothing Json.dumps (Delete "a1") _
           AttributeError).
  reflexivity.
Defined.

Lemma lookup_after_add_witness :
  let m' := snd (add_preference Json.dumps (PStr "quiet mornings")
                                "manual_chat" "c3" Demo.sample_store) in
  fst (get_preference_by_id "c3" m')
  = Ok (new_record (PStr "quiet mornings") "manual_chat" "c3")
  /\ fst (get_preference_by_id "a1" m')
     = fst (get_preference_by_id "a1" Demo.sample_store).
Proof.
  apply (lookup_after_add Json.dumps
           [[("text", PStr "tea over coffee"); ("source", PStr "manual_chat");
             ("id", PStr "a1")];
            [("text", PStr "long walks"); ("source", PStr "manual_chat");
             ("id", PStr "b2")]] None (PStr "quiet mornings")
           "manual_chat" "c3" "a1").
  - simpl. intuition discriminate.
  - discriminate.
Defined.

Lemma lookup_after_delete_witness :
  let m' := snd (delete_preference Json.dumps "a1" Demo.sample_store) in
  fst (get_preference_by_id "a1" m') = Ok PNone
  /\ fst (get_preference_by_id "b2" m')
     = fst (get_preference_by_id "b2" Demo.sample_store).
Proof.
  apply (lookup_after_delete Json.dumps
           [[("text", PStr "tea over coffee"); ("source", PStr "manual_chat");
             ("id", PStr "a1")];
            [("text", PStr "long walks"); ("source", PStr "manual_chat");
             ("id", PStr "b2")]] None "a1" "b2").
  discriminate.
Defined.

Lemma add_delete_commute_witness :
  exec Json.dumps (Delete "a1")
    (exec Json.dumps (Add (PStr "quiet mornings") "manual_chat" "c3")
          Demo.sample_store)
  = exec Json.dumps (Add (PStr "quiet mornings") "manual_chat" "c3")
      (exec Json.dumps (Delete "a1") Demo.sample_store).
Proof.
  apply (add_delete_commute Json.dumps Demo.two_records None). discriminate.
Defined.

End StoreFacts.

(** * The two managers of a session *)

Module AppFacts.
Import PreferenceManager App.
#[local] Open Scope list_scope.

Lemma keeps_all_without_id l pref_id :
  (forall p, In p l -> has_id pref_id p = false) ->
  List.filter (keeps pref_id) l = l.
Proof.
  intros H. induction l as [|p l IH]; simpl; [reflexivity|].
  unfold keeps at 1. rewrite (H p) by now left. simpl.
  f_equal. apply IH. intros q Hq. apply H. now right.
Qed.

Lemma filter_dicts (f : pyval -> bool) (recs : list (list (string * pyval))) :
  exists recs', List.filter f (map PDict recs) = map PDict recs'.
Proof.
  induction recs as [|d recs [recs' IH]]; simpl.
  - now exists [].
  - destruct (f (PDict d)).
    + exists (d :: recs'). simpl. now rewrite IH.
    + now exists recs'.
Qed.

Section Facts.
Variable json_dumps : pyval -> string.
Variable read_text : string -> result string.
Variable json_loads : string -> result pyval.

(** Both managers of a session start from what the file loads as. *)
Lemma start_loaded file m :
  __init__ read_text json_loads file = Ok m ->
  start read_text json_loads file
  = Ok {| sidebar_preferences := preferences m;
          bot_preferences := preferences m;
          preferences_file := file |}.
Proof. intros H. unfold start. now rewrite H. Qed.

Lemma act_keeps_displayed a s r :
  In r (displayed s) -> In r (displayed (snd (act json_dumps a s))).
Proof.
  destruct s as [side bot file]. unfold displayed at 1. simpl.
  destruct bot as [| | | |l|]; try contradiction. intros Hin.
  destruct a as [t s i|i].
  - simpl. unfold displayed; simpl. apply in_or_app. now left.
  - unfold act, bind, as_sidebar, ret.
    destruct (delete_preference json_dumps i _) as [[deleted|e] m];
      exact Hin.
Qed.

(** X8. In a session the displayed list only grows: the sidebar shows
    the list of the bot's manager, additions go to that manager and the
    delete button to the other one, so a record that is displayed stays
    displayed whatever is added or deleted afterwards. *)
Theorem displayed_only_grows (actions : list action) (s : session) r :
  In r (displayed s) -> In r (displayed (after json_dumps actions s)).
Proof.
  revert s. induction actions as [|a actions IH]; intros s Hin; simpl.
  - exact Hin.
  - apply IH. now apply act_keeps_displayed.
Qed.

(** The delete button on a sidebar list of records, in one equation. *)
Lemma act_delete_records (recs : list (list (string * pyval))) bot file i :
  act json_dumps (DeleteButton i)
    {| sidebar_preferences := PList (map PDict recs);
       bot_preferences := bot; preferences_file := file |}
  = let kept := List.filter (keeps i) (map PDict recs) in
    if (length kept <? length (map PDict recs))%nat
    then (Ok (PBool true),
          {| sidebar_preferences := PList kept; bot_preferences := bot;
             preferences_file := Some (json_dumps (PList kept)) |})
    else (Ok (PBool false),
          {| sidebar_preferences := PList kept; bot_preferences := bot;
             preferences_file := file |}).
Proof.
  unfold act, bind, as_sidebar, ret.
  cbn [sidebar_preferences bot_preferences preferences_file].
  rewrite ManagerFacts.delete_preference_list, ManagerFacts.without_id_dicts.
  cbv zeta. destruct (_ <? _)%nat; reflexivity.
Qed.

(** The sidebar manager's list is always a part of the list it loaded
    at the start. *)
Lemma sidebar_part_of_start (actions : list action) :
  forall s (recs : list (list (string * pyval))),
    sidebar_preferences s = PList (map PDict recs) ->
    exists recs',
      sidebar_preferences (after json_dumps actions s)
      = PList (map PDict recs')
      /\ forall p, In p (map PDict recs') -> In p (map PDict recs).
Proof.
  induction actions as [|a actions IH]; intros s recs Hs.
  - exists recs. split; [exact Hs | trivial].
  - simpl. destruct s as [side bot file]. simpl in Hs. subst side.
    destruct a as [t src i|i].
    + apply IH. unfold act, as_bot.
      destruct (add_preference json_dumps t src i _) as [r m]. reflexivity.
    + destruct (filter_dicts (keeps i) recs) as [recs1 Hrecs1].
      destruct (IH (snd (act json_dumps (DeleteButton i)
                           {| sidebar_preferences := PList (map PDict recs);
                              bot_preferences := bot;
                              preferences_file := file |})) recs1)
        as (recs' & Hafter & Hin).
      { rewrite act_delete_records. cbv zeta.
        destruct (_ <? _)%nat; simpl; now rewrite Hrecs1. }
      exists recs'. split; [exact Hafter|].
      intros p Hp. apply Hin in Hp. rewrite <- Hrecs1 in Hp.
      now apply List.filter_In in Hp.
Qed.

(** X9. The delete button cannot delete what the session has learned:
    when the file loaded at the start is a list of records, pressing
    delete for an id that no loaded record has (the id of any record
    added since) returns [False] and changes neither list nor the file,
    at any point of the session. *)
Theorem delete_button_misses_new_records
    (actions : list action) file m
    (recs : list (list (string * pyval))) pref_id :
  __init__ read_text json_loads file = Ok m ->
  preferences m = PList (map PDict recs) ->
  (forall p, In p (map PDict recs) -> has_id pref_id p = false) ->
  exists s0,
    start read_text json_loads file = Ok s0
    /\ let s := after json_dumps actions s0 in
       act json_dumps (DeleteButton pref_id) s = (Ok (PBool false), s).
Proof.
  intros Hinit Hload Hnone. eexists. split; [exact (start_loaded _ _ Hinit)|].
  cbv zeta.
  destruct (sidebar_part_of_start actions
              {| sidebar_preferences := preferences m;
                 bot_preferences := preferences m;
                 preferences_file := file |} recs Hload)
    as (recs' & Hside & Hpart).
  destruct (after json_dumps actions _) as [side bot f].
  simpl in Hside. subst side.
  rewrite act_delete_records. cbv zeta.
  rewrite keeps_all_without_id by (intros p Hp; apply Hnone, Hpart, Hp).
  now rewrite Nat.ltb_irrefl.
Qed.




End Facts.

Lemma delete_button_misses_new_records_witness :
  exists s0,
    start Demo.read_text Json.loads
      (Some (Json.dumps (PList Demo.two_records))) = Ok s0
    /\ let s := after Json.dumps
                  [BotAdds (PStr "quiet mornings") "manual_chat" "c3"] s0 in
       act Json.dumps (DeleteButton "c3") s = (Ok (PBool false), s).
Proof.
  apply (delete_button_misses_new_records Json.dumps Demo.read_text Json.loads
           [BotAdds (PStr "quiet mornings") "manual_chat" "c3"]
           (Some (Json.dumps (PList Demo.two_records)))
           {| preferences := PList Demo.two_records;
              storage := Some (Json.dumps (PList Demo.two_records)) |}
           [[("text", PStr "tea over coffee"); ("source", PStr "manual_chat");
             ("id", PStr "a1")];
            [("text", PStr "long walks"); ("source", PStr "manual_chat");
             ("id", PStr "b2")]] "c3").
  - vm_compute. reflexivity.
  - reflexivity.
  - intros p [<-|[<-|[]]]; reflexivity.
Defined.


Lemma displayed_only_grows_witness :
  exists s0,
    start Demo.read_text Json.loads
      (Some (Json.dumps (PList Demo.two_records))) = Ok s0
    /\ In (Demo.record "tea over coffee" "manual_chat" "a1")
          (displayed
             (after Json.dumps
                [BotAdds (PStr "quiet mornings") "manual_chat" "c3";
                 DeleteButton "a1"] s0)).
Proof.
  eexists. split; [vm_compute; reflexivity|].
  apply displayed_only_grows. vm_compute. now left.
Defined.

End AppFacts.

(** * The test script and the manager *)

Module ScriptFacts.
Import PreferenceManager TestScript.

Section Facts.
Variable json_dumps : pyval -> string.
Variable read_text : string -> result string.
Variable json_loads : string -> result pyval.

(** X11. The test script and the manager agree: on a file that loads
    as a list of [n] items, [add_test_preference] writes exactly the
    file that a [PreferenceManager] made from that file writes when
    asked to add the text [Test preference n+1] with source
    [test_script]. *)
Theorem script_agrees_with_manager file new_id m l :
  __init__ read_text json_loads file = Ok m ->
  preferences m = PList l ->
  add_test_preference json_dumps read_text json_loads file new_id
  = Ok (storage
          (snd (add_preference json_dumps
                  (PStr ("Test preference " +:+ pretty (length l + 1)%nat))
                  "test_script" new_id m))).
Proof.
  unfold __init__, _load_preferences, add_test_preference.
  intros Hm Hl.
  assert (match file with
          | Some bytes =>
              match read_text bytes with
              | Ok text =>
                  if negb (len (strip text) =? 0)%nat
                     && negb (String.eqb (strip text) "{}")
                  then match json_loads (strip text) with
                       | Ok v => v
                       | Raise _ => PList []
                       end
                  else PList []
              | Raise _ => PList []
              end
          | None => PList []
          end = PList l) as ->.
  { rewrite <- Hl. destruct file as [bytes|];
      [|inversion Hm; reflexivity].
    destruct (read_text bytes) as [text|e]; cbv zeta in Hm.
    - destruct (len (strip text) =? 0)%nat;
        [inversion Hm; reflexivity|].
      destruct (String.eqb (strip text) "{}");
        [inversion Hm; reflexivity|]. simpl in *.
      destruct (json_loads (strip text)) as [v|e];
        [inversion Hm; reflexivity|].
      destruct (load_handled e); inversion Hm; reflexivity.
    - destruct (load_handled e); inversion Hm; reflexivity. }
  destruct m as [prefs f]. simpl in Hl. subst prefs. reflexivity.
Qed.

(** X22. Where the test script and the manager part: when reading or
    parsing the file raises an exception other than [JSONDecodeError]
    and [FileNotFoundError], the constructor of the manager raises it,
    while [add_test_preference], whose [except] names [Exception],
    starts from the empty list and replaces the content of the file by
    the one record [Test preference 1]. *)
Theorem script_overwrites_unloadable_file c e new_id :
  loading_raises read_text json_loads c e ->
  e <> OtherError "JSONDecodeError" ->
  e <> OtherError "FileNotFoundError" ->
  __init__ read_text json_loads (Some c) = Raise e
  /\ add_test_preference json_dumps read_text json_loads (Some c) new_id
     = Ok (Some (json_dumps
                   (PList [new_record (PStr "Test preference 1")
                             "test_script" new_id]))).
Proof.
  intros Hraise H1 H2. split.
  - rewrite (ManagerFacts.init_when_loading_raises _ _ c e Hraise).
    destruct (load_handled e) eqn:E; [|reflexivity].
    apply ManagerFacts.load_handled_names in E. destruct E; contradiction.
  - unfold add_test_preference.
    destruct Hraise as [Hread|(text & Hread & Hne & Hbr & Hv)];
      rewrite Hread; [reflexivity|]. cbv zeta.
    destruct (len (strip text) =? 0)%nat; [reflexivity|].
    destruct (String.eqb (strip text) "{}"); [reflexivity|].
    simpl. rewrite Hv. reflexivity.
Qed.

End Facts.

Lemma script_overwrites_unloadable_file_witness :
  let c := Demo.long_integer 4301 in
  __init__ Demo.read_text Json.loads (Some c)
  = Raise (OtherError "ValueError")
  /\ add_test_preference Json.dumps Demo.read_text Json.loads (Some c) "t9"
     = Ok (Some (Json.dumps
                   (PList [Demo.record "Test preference 1"
                             "test_script" "t9"]))).
Proof.
  apply (script_overwrites_unloadable_file Json.dumps Demo.read_text
           Json.loads (Demo.long_integer 4301) (OtherError "ValueError")
           "t9").
  - right. exists (Demo.long_integer 4301).
    split; [reflexivity|]. split; [vm_compute; discriminate|].
    split; [vm_compute; discriminate | vm_compute; reflexivity].
  - discriminate.
  - discriminate.
Defined.

Lemma script_agrees_with_manager_witness :
  add_test_preference Json.dumps Demo.read_text Json.loads
    (Some (Json.dumps (PList Demo.two_records))) "t9"
  = Ok (storage
          (snd (add_preference Json.dumps (PStr "Test preference 3")
                  "test_script" "t9"
                  {| preferences := PList Demo.two_records;
                     storage :=
                       Some (Json.dumps (PList Demo.two_records)) |}))).
Proof.
  apply (script_agrees_with_manager Json.dumps Demo.read_text Json.loads
           (Some (Json.dumps (PList Demo.two_records))) "t9" _
           Demo.two_records).
  - vm_compute. reflexivity.
  - reflexivity.
Defined.

End ScriptFacts.

(** * Further properties of the bot *)

Module BotMore.
Import PreferenceManager ElicitationBot.
#[local] Open Scope list_scope.

Lemma append_assoc (a b c : string) : (a +:+ b) +:+ c = a +:+ (b +:+ c).
Proof.
  induction a as [|x a IH]; [reflexivity|].
  change (String x ((a +:+ b) +:+ c) = String x (a +:+ (b +:+ c))).
  now f_equal.
Qed.

Lemma ids_dicts_app l1 l2 : ids (l1 ++ l2) = ids l1 ++ ids l2.
Proof. unfold ids. apply flat_map_app. Qed.

Section Facts.
Variable json_dumps : pyval -> string.
Variable uuid4 : nat -> string.
Variable now_isoformat : nat -> string.
Variable py_repr : pyval -> string.

#[local] Abbreviation save := (save_preference json_dumps uuid4 now_isoformat).

(** X12. The id [save_preference] returns is not the id it stored: the
    record handed back carries the first uuid drawn, the stored record
    the second.  When the two differ and the first is not an id of the
    store, looking the returned id up finds nothing and deleting by it
    deletes nothing. *)
Theorem returned_id_is_not_stored t s b
    (recs : list (list (string * pyval))) :
  valid_text t = true ->
  preferences (preference_manager b) = PList (map PDict recs) ->
  uuid4 (uuids_drawn b) <> uuid4 (S (uuids_drawn b)) ->
  ~ In (PStr (uuid4 (uuids_drawn b))) (ids (map PDict recs)) ->
  let returned_id := uuid4 (uuids_drawn b) in
  let m' := preference_manager (snd (save t s b)) in
  (exists v, fst (save t s b) = Ok v /\ py_get v "id" = Ok (PStr returned_id))
  /\ fst (get_preference_by_id returned_id m') = Ok PNone
  /\ delete_preference json_dumps returned_id m' = (Ok false, m').
Proof.
  intros Hv Hl Hdiff Hfresh. cbv zeta.
  rewrite (BotFacts.save_preference_valid json_dumps uuid4 now_isoformat
             t s b _ Hv Hl). cbv zeta. cbn [fst snd preference_manager].
  split; [eexists; split; reflexivity|].
  set (inner := PDict [("id", PStr (uuid4 (uuids_drawn b))); ("text", PStr t);
                       ("source", PStr s);
                       ("timestamp", PStr (now_isoformat (clock_reads b)))]).
  change (map PDict recs
          ++ [new_record inner "manual_chat" (uuid4 (S (uuids_drawn b)))])
    with (map PDict recs
          ++ map PDict [[("text", inner); ("source", PStr "manual_chat");
                         ("id", PStr (uuid4 (S (uuids_drawn b))))]]).
  rewrite <- map_app.
  assert (~ In (PStr (uuid4 (uuids_drawn b)))
            (ids (map PDict
                    (recs ++ [[("text", inner); ("source", PStr "manual_chat");
                               ("id", PStr (uuid4 (S (uuids_drawn b))))]]))))
    as Hfresh'.
  { rewrite map_app, ids_dicts_app. intros H. apply in_app_or in H.
    destruct H as [H|[H|[]]]; [now apply Hfresh|].
    inversion H. congruence. }
  split.
  - rewrite StoreFacts.get_preference_by_id_list,
      StoreFacts.first_with_id_dicts.
    now rewrite (StoreFacts.find_none_fresh _ _ Hfresh').
  - rewrite ManagerFacts.delete_preference_list,
      ManagerFacts.without_id_dicts.
    rewrite AppFacts.keeps_all_without_id; [now rewrite Nat.ltb_irrefl|].
    intros p Hp. destruct (has_id (uuid4 (uuids_drawn b)) p) eqn:E;
      [|reflexivity].
    exfalso. apply Hfresh'. eapply StoreFacts.has_id_in_ids; eassumption.
Qed.

Lemma format_lines_texts items texts formatted :
  Forall2 (fun p t => py_item p "text" = Ok (PStr t)) items texts ->
  format_lines py_repr items formatted
  = Ok (formatted +:+ prompt_lines texts).
Proof.
  intros H. revert formatted.
  induction H as [|p t items texts Hp _ IH]; intros formatted; simpl.
  - f_equal. induction formatted as [|c f IHf]; [reflexivity|].
    change (String c f = String c (f +:+ "")). now f_equal.
  - rewrite Hp, IH. f_equal. rewrite append_assoc. f_equal.
    change (String "-" (String " " ((t +:+ String Re.newline "")
                                    +:+ prompt_lines texts))
            = String "-" (String " " (t +:+ String Re.newline
                                              (prompt_lines texts)))).
    now rewrite append_assoc.
Qed.

(** X13. The preference list as a prompt: for a store whose records
    all have a string under [text], [_format_preferences_for_prompt]
    returns one line [- text] per record, in the order of the store,
    each ended by a newline; for the empty store it returns the
    sentence [No preferences have been learned yet.]; the bot is left
    as it was. *)
Theorem format_preferences_lines b l texts :
  preferences (preference_manager b) = PList l ->
  Forall2 (fun p t => py_item p "text" = Ok (PStr t)) l texts ->
  _format_preferences_for_prompt py_repr b
  = (Ok (match l with
         | [] => "No preferences have been learned yet."
         | _ => prompt_lines texts
         end), b).
Proof.
  intros Hl Htexts.
  destruct b as [[prefs file] convs nu nc nl]. simpl in Hl. subst prefs.
  unfold _format_preferences_for_prompt, get_preferences, on_manager,
    PreferenceManager.get_preferences, bind, get, ret, lift_result.
  simpl. destruct l as [|p l]; [reflexivity|]. simpl negb. cbv iota.
  rewrite (format_lines_texts _ _ _ Htexts). reflexivity.
Qed.

(** X14. A record without a [text] stops the prompt: if some record of
    the store is a dict that lacks the key, [_format_preferences_for_prompt]
    raises [KeyError] and the bot is left as it was. *)
Theorem format_preferences_missing_text b l1 d l2 texts :
  preferences (preference_manager b) = PList (l1 ++ PDict d :: l2) ->
  Forall2 (fun p t => py_item p "text" = Ok (PStr t)) l1 texts ->
  (forall v, ~ In ("text", v) d) ->
  _format_preferences_for_prompt py_repr b
  = (Raise (OtherError "KeyError"), b).
Proof.
  intros Hl Htexts Hmissing.
  destruct b as [[prefs file] convs nu nc nl]. simpl in Hl. subst prefs.
  unfold _format_preferences_for_prompt, get_preferences, on_manager,
    PreferenceManager.get_preferences, bind, get, ret, lift_result.
  simpl.
  assert (negb (length (l1 ++ PDict d :: l2) =? 0)%nat = true) as ->.
  { rewrite length_app. simpl. apply negb_true_iff, Nat.eqb_neq. lia. }
  simpl.
  assert (forall formatted,
             format_lines py_repr (l1 ++ PDict d :: l2) formatted
             = Raise (OtherError "KeyError")) as ->; [|reflexivity].
  induction Htexts as [|p t l1 texts Hp _ IH]; intros formatted; simpl.
  - assert (dict_item d "text" = Raise (OtherError "KeyError")) as ->;
      [|reflexivity].
    induction d as [|[k v] d IHd]; [reflexivity|]. simpl.
    destruct (String.eqb k "text") eqn:E.
    + apply String.eqb_eq in E. subst k.
      exfalso. apply (Hmissing v). now left.
    + apply IHd. intros v' Hv'. apply (Hmissing v'). now right.
  - rewrite Hp. apply IH.
Qed.

End Facts.

(** ** Story prompts *)

(** The questions not yet asked. *)
Lemma questions_distinct : List.NoDup STORY_PROMPT_QUESTIONS.
Proof.
  apply NoDup_ListNoDup. apply (bool_decide_unpack _). vm_compute. exact I.
Qed.

Lemma random_choice_in r seq :
  seq <> [] -> exists x, random_choice r seq = Ok x /\ In x seq.
Proof.
  intros Hne. unfold random_choice.
  destruct (lookup_lt_is_Some_2 seq (r mod length seq)) as [x Hx].
  { apply Nat.mod_upper_bound. destruct seq; [contradiction | discriminate]. }
  rewrite Hx. exists x. split; [reflexivity|].
  apply list_elem_of_In. eapply list_elem_of_lookup_2. exact Hx.
Qed.

Lemma unused_spec (used : gset string) q :
  In q (List.filter (fun q => negb (bool_decide (q ∈ used)))
                    STORY_PROMPT_QUESTIONS)
  <-> In q STORY_PROMPT_QUESTIONS /\ (q ∉ used).
Proof.
  rewrite List.filter_In, negb_true_iff, bool_decide_eq_false. reflexivity.
Qed.

(** One call, in the two cases of the method. *)
Lemma story_call r (used : gset string) :
  let unused := List.filter (fun q => negb (bool_decide (q ∈ used)))
                            STORY_PROMPT_QUESTIONS in
  exists prompt,
    In prompt STORY_PROMPT_QUESTIONS
    /\ match unused with
       | [] => _get_story_prompt r used = (Ok prompt, {[ prompt ]} ∪ ∅)
       | _ => In prompt unused
              /\ _get_story_prompt r used = (Ok prompt, {[ prompt ]} ∪ used)
       end.
Proof.
  cbv zeta. unfold _get_story_prompt, bind, get, put, ret, lift_result.
  destruct (List.filter _ STORY_PROMPT_QUESTIONS) as [|q unused] eqn:E.
  - destruct (random_choice_in r STORY_PROMPT_QUESTIONS) as (x & Hx & Hin);
      [discriminate|].
    exists x. rewrite Hx. split; [exact Hin | reflexivity].
  - destruct (random_choice_in r (q :: unused)) as (x & Hx & Hin);
      [discriminate|].
    exists x. rewrite Hx. split; [|split; [exact Hin | reflexivity]].
    rewrite <- E in Hin. now apply unused_spec in Hin.
Qed.

(** X15. A story prompt is always one of the questions, and never one
    already asked while a question is left: if some question is not in
    the used set, the prompt returned is not in it either and is added
    to it; if all are used, the set starts again from the prompt
    returned.  The call never fails. *)
Theorem story_prompt_is_new r (used : gset string) :
  exists prompt used',
    _get_story_prompt r used = (Ok prompt, used')
    /\ In prompt STORY_PROMPT_QUESTIONS
    /\ ((exists q, In q STORY_PROMPT_QUESTIONS /\ (q ∉ used)) ->
        (prompt ∉ used) /\ used' = {[ prompt ]} ∪ used)
    /\ ((forall q, In q STORY_PROMPT_QUESTIONS -> q ∈ used) ->
        used' = {[ prompt ]}).
Proof.
  destruct (story_call r used) as (prompt & Hin & Hcall). cbv zeta in Hcall.
  destruct (List.filter _ STORY_PROMPT_QUESTIONS) as [|q unused] eqn:E.
  - exists prompt, ({[ prompt ]} ∪ ∅). split; [exact Hcall|].
    split; [exact Hin|]. split.
    + intros (q & Hq & Hnew).
      assert (In q []) as []. rewrite <- E. now apply unused_spec.
    + intros _. apply union_empty_r_L.
  - destruct Hcall as [Hunused Hcall].
    exists prompt, ({[ prompt ]} ∪ used). split; [exact Hcall|].
    split; [exact Hin|]. rewrite <- E in Hunused.
    apply unused_spec in Hunused as [_ Hnew]. split.
    + intros _. split; [exact Hnew | reflexivity].
    + intros Hall. exfalso. apply Hnew, Hall, Hin.
Qed.

Lemma filter_out_one (used : gset string) prompt l :
  List.NoDup l ->
  length (List.filter (fun q => negb (bool_decide (q ∈ used))) l)
  <= S (length (List.filter
                  (fun q => negb (bool_decide (q ∈ {[ prompt ]} ∪ used))) l)).
Proof.
  induction 1 as [|q l Hq Hnd IH]; [simpl; lia|].
  cbn [List.filter].
  destruct (decide (q ∈ used)) as [Hu|Hu].
  - rewrite (bool_decide_eq_true_2 _ Hu).
    rewrite (bool_decide_eq_true_2 (q ∈ {[ prompt ]} ∪ used));
      [exact IH | set_solver].
  - rewrite (bool_decide_eq_false_2 _ Hu). cbn [negb length].
    destruct (decide (q = prompt)) as [->|Hne].
    + rewrite (bool_decide_eq_true_2 (prompt ∈ {[ prompt ]} ∪ used));
        [|set_solver].
      cbn [negb].
      enough (List.filter (fun q => negb (bool_decide (q ∈ used))) l
              = List.filter
                  (fun q => negb (bool_decide (q ∈ {[ prompt ]} ∪ used))) l)
        as -> by lia.
      apply List.filter_ext_in. intros a Ha. f_equal.
      apply bool_decide_ext. split; [set_solver|].
      intros H. destruct (proj1 (elem_of_union _ _ _) H) as [Hs|Hin];
        [|exact Hin].
      apply elem_of_singleton in Hs. subst a. contradiction.
    + rewrite (bool_decide_eq_false_2 (q ∈ {[ prompt ]} ∪ used)).
      * cbn [negb length]. lia.
      * intros Hx. destruct (proj1 (elem_of_union _ _ _) Hx) as [Hs|Hx'];
          [|contradiction].
        apply elem_of_singleton in Hs. contradiction.
Qed.

(** A run of calls no longer than the questions left: the prompts are
    distinct questions that had not been used. *)
Lemma story_run (rs : list nat) :
  forall used : gset string,
    length rs
    <= length (List.filter (fun q => negb (bool_decide (q ∈ used)))
                           STORY_PROMPT_QUESTIONS) ->
    exists prompts used',
      story_prompts rs used = (Ok prompts, used')
      /\ length prompts = length rs
      /\ List.NoDup prompts
      /\ forall p, In p prompts ->
                   In p STORY_PROMPT_QUESTIONS /\ (p ∉ used).
Proof.
  induction rs as [|r rs IH]; intros used Hlen.
  - exists [], used.
    split; [reflexivity|]. split; [reflexivity|].
    split; [constructor|]. intros p [].
  - destruct (story_call r used) as (prompt & Hin & Hcall).
    cbv zeta in Hcall.
    pose proof (filter_out_one used prompt _ questions_distinct) as Hone.
    remember (List.filter (fun q => negb (bool_decide (q ∈ used)))
                          STORY_PROMPT_QUESTIONS) as unused eqn:E.
    remember (length (List.filter
                        (fun q => negb (bool_decide (q ∈ {[ prompt ]} ∪ used)))
                        STORY_PROMPT_QUESTIONS)) as n eqn:En.
    destruct unused as [|q unused].
    { exfalso. clear - Hlen. cbn [length] in Hlen. lia. }
    destruct Hcall as [Hunused Hcall]. rewrite E in Hunused.
    apply unused_spec in Hunused as [_ Hnew].
    assert (length rs <= n) as Hrs.
    { clear - Hlen Hone. cbn [length] in Hlen, Hone. lia. }
    rewrite En in Hrs.
    destruct (IH ({[ prompt ]} ∪ used) Hrs)
      as (prompts & used' & Hrun & Hl & Hnd & Hall).
    exists (prompt :: prompts), used'.
    split; [|split; [|split]].
    + cbn [story_prompts]. unfold bind at 1. rewrite Hcall.
      unfold bind at 1. rewrite Hrun. reflexivity.
    + cbn [length]. now rewrite Hl.
    + constructor; [|exact Hnd].
      intros Hp. apply Hall in Hp as [_ Hp].
      apply Hp. apply elem_of_union_l. now apply elem_of_singleton.
    + intros p [<-|Hp]; [split; assumption|].
      apply Hall in Hp as [Hq Hp]. split; [exact Hq|].
      intros Hu. apply Hp. now apply elem_of_union_r.
Qed.

Lemma nothing_used (l : list string) :
  List.filter (fun q => negb (bool_decide (q ∈ (∅ : gset string)))) l = l.
Proof.
  induction l as [|q l IH]; [reflexivity|]. cbn [List.filter].
  rewrite (bool_decide_eq_false_2 (q ∈ (∅ : gset string)));
    [|apply not_elem_of_empty].
  cbn [negb]. now f_equal.
Qed.

(** X16. No question comes twice in a round: whatever the random
    numbers, the first ten story prompts of a bot are the ten questions,
    each exactly once, in some order. *)
Theorem first_ten_prompts_are_all_questions (rs : list nat) :
  length rs = 10 ->
  exists prompts used',
    story_prompts rs ∅ = (Ok prompts, used')
    /\ Permutation prompts STORY_PROMPT_QUESTIONS.
Proof.
  intros Hlen.
  destruct (story_run rs ∅) as (prompts & used' & Hrun & Hl & Hnd & Hall).
  { rewrite nothing_used, Hlen. apply Nat.le_refl. }
  exists prompts, used'. split; [exact Hrun|].
  apply NoDup_Permutation_bis; [exact Hnd | |].
  - rewrite Hl, Hlen. apply Nat.le_refl.
  - intros p Hp. now apply Hall.
Qed.

Lemma first_ten_prompts_are_all_questions_witness :
  exists prompts used',
    story_prompts [3; 14; 15; 92; 65; 35; 89; 79; 32; 38] ∅
    = (Ok prompts, used')
    /\ Permutation prompts STORY_PROMPT_QUESTIONS.
Proof.
  apply first_ten_prompts_are_all_questions. reflexivity.
Defined.

(** ** The exchange with the language model *)

Section Exchange.
Variable json_dumps : pyval -> string.
Variable uuid4 : nat -> string.
Variable now_isoformat : nat -> string.
Variable generate_response : nat -> list chat_message -> option string.
Variable ELICITATION_SYSTEM_PROMPT : string.
Variable extraction_prompt : string -> string.

(** [process_message] on a store that is a list: what is asked of the
    language model, and what the history becomes. *)
Lemma process_message_trace user_id message b l :
  preferences (preference_manager b) = PList l ->
  let history := default [] (conversations b !! user_id) in
  let turn := {| role := "user"; content := Some message |} in
  let response :=
    generate_response (S (llm_calls b))
      ({| role := "system"; content := Some ELICITATION_SYSTEM_PROMPT |}
       :: last_ten (history ++ [turn])) in
  exists detected b',
    process_message json_dumps uuid4 now_isoformat generate_response
      ELICITATION_SYSTEM_PROMPT extraction_prompt user_id message b
    = (Ok (response, detected), b')
    /\ conversations b'
       = <[user_id := history ++ [turn; {| role := "assistant";
                                           content := response |}]]>
           (conversations b)
    /\ llm_calls b' = S (S (llm_calls b)).
Proof.
  intros Hl history turn response.
  unfold process_message, process_message_with.
  do 2 EffFacts.eff_step.
  match goal with
  | |- context [bind (for_each _ _) _ ?b0] => set (b0' := b0)
  end.
  destruct (BotFacts.save_each json_dumps uuid4 now_isoformat
              (_extract_preferences_with_pattern message)
              "pattern_detected" b0' l Hl)
    as (b1 & Hrun & Hthrough & Hconv & Hllm).
  erewrite EffFacts.bind_ok by exact Hrun.
  unfold try_except, bind. rewrite BotFacts.extract_returns. cbv beta iota.
  match goal with
  | |- context [match preference_of_reply _ with
                | Some _ => _ | None => _ end ?s] => set (b1' := s)
  end.
  match goal with
  | |- context [let (_, _) := ?c b1' in _] => set (step := c)
  end.
  assert (exists detected b2,
             step b1' = (Ok detected, b2)
             /\ conversations b2 = conversations b1
             /\ llm_calls b2 = S (llm_calls b1))
    as (detected & b2 & Hdet & Hconv2 & Hllm2).
  { pose proof Hthrough as (l0 & n1 & _ & Hl1 & _).
    subst step. destruct (preference_of_reply _) as [p|].
    - destruct (negb (len p =? 0)%nat && negb (String.eqb p "NONE")).
      + destruct (BotFacts.save_step json_dumps uuid4 now_isoformat
                    p "llm_detected" b1' _ Hl1)
          as (v & b2 & Hsave & _ & Hc & Hn).
        exists (Some p), b2. rewrite Hsave.
        split; [reflexivity | split; assumption].
      + eexists _, b1'. split; [reflexivity | split; reflexivity].
    - eexists _, b1'. split; [reflexivity | split; reflexivity]. }
  rewrite Hdet.
  unfold get, put, ret, llm_generate_response, with_conversations.
  cbn [preference_manager conversations uuids_drawn clock_reads llm_calls].
  assert (conversations b2 !! user_id = Some (history ++ [turn])) as Hhist.
  { rewrite Hconv2, Hconv. subst b0'. cbn [with_conversations conversations].
    apply lookup_insert_eq. }
  rewrite Hhist. cbn [default from_option id].
  rewrite Hllm2, Hllm, Hconv2, Hconv. subst b0'.
  cbn [with_conversations conversations llm_calls].
  exists detected. eexists. split; [reflexivity|]. split; [|reflexivity].
  cbn [conversations]. rewrite insert_insert_eq, <- app_assoc. reflexivity.
Qed.

Lemma last_ten_snoc {A} (xs : list A) (x : A) :
  length (last_ten (xs ++ [x])) <= 10
  /\ last (last_ten (xs ++ [x])) = Some x.
Proof.
  unfold last_ten. rewrite length_skipn, length_app. cbn [length].
  split; [lia|].
  rewrite skipn_app.
  replace (length xs + 1 - 10 - length xs) with 0 by lia.
  cbn [skipn]. apply last_snoc.
Qed.

(** X17. [process_message] records the exchange and nothing else of
    the history: on a store that is a list it returns the answer of the
    language model to the system prompt followed by at most the last
    ten messages of this user, the new message last; the user's history
    grows by the message and that answer, in this order; the histories
    of other users are untouched. *)
Theorem process_message_records_exchange user_id message b l :
  preferences (preference_manager b) = PList l ->
  let history := default [] (conversations b !! user_id) in
  let turn := {| role := "user"; content := Some message |} in
  let window := last_ten (history ++ [turn]) in
  let response :=
    generate_response (S (llm_calls b))
      ({| role := "system"; content := Some ELICITATION_SYSTEM_PROMPT |}
       :: window) in
  exists detected b',
    process_message json_dumps uuid4 now_isoformat generate_response
      ELICITATION_SYSTEM_PROMPT extraction_prompt user_id message b
    = (Ok (response, detected), b')
    /\ length window <= 10 /\ last window = Some turn
    /\ conversations b' !! user_id
       = Some (history ++ [turn; {| role := "assistant";
                                    content := response |}])
    /\ forall other, other <> user_id ->
                     conversations b' !! other = conversations b !! other.
Proof.
  intros Hl history turn window response.
  destruct (process_message_trace user_id message b l Hl)
    as (detected & b' & Hrun & Hconv & _).
  exists detected, b'. split; [exact Hrun|].
  destruct (last_ten_snoc history turn) as [Hlen Hlast].
  split; [exact Hlen|]. split; [exact Hlast|].
  rewrite Hconv. split.
  - apply lookup_insert_eq.
  - intros other Hother. now apply lookup_insert_ne.
Qed.

End Exchange.

(** ** When the service fails *)

Section Failure.
Variable json_dumps : pyval -> string.
Variable uuid4 : nat -> string.
Variable now_isoformat : nat -> string.
Variable create : nat -> list chat_message -> result (option string).
Variable describe : exn -> string.
Variable ELICITATION_SYSTEM_PROMPT : string.
Variable extraction_prompt : string -> string.

(** X18. A failing service shows up as the assistant's message: if the
    chat-completion call for the response raises, [process_message]
    still returns; its response is the text [Error generating response: ]
    followed by the error, and that text goes into the user's history as
    the assistant's turn. *)
Theorem service_failure_becomes_the_response user_id message b l e :
  preferences (preference_manager b) = PList l ->
  let history := default [] (conversations b !! user_id) in
  let turn := {| role := "user"; content := Some message |} in
  create (S (llm_calls b))
    ({| role := "system"; content := Some ELICITATION_SYSTEM_PROMPT |}
     :: last_ten (history ++ [turn]))
  = Raise e ->
  let apology := Some ("Error generating response: " +:+ describe e) in
  exists detected b',
    process_message json_dumps uuid4 now_isoformat
      (LLMService.generate_response create describe)
      ELICITATION_SYSTEM_PROMPT extraction_prompt user_id message b
    = (Ok (apology, detected), b')
    /\ conversations b' !! user_id
       = Some (history ++ [turn; {| role := "assistant";
                                    content := apology |}]).
Proof.
  intros Hl history turn Hfail apology.
  destruct (process_message_trace json_dumps uuid4 now_isoformat
              (LLMService.generate_response create describe)
              ELICITATION_SYSTEM_PROMPT extraction_prompt
              user_id message b l Hl)
    as (detected & b' & Hrun & Hconv & _).
  cbv zeta in Hrun, Hconv. fold history turn in Hrun, Hconv.
  unfold LLMService.generate_response at 2 in Hrun.
  unfold LLMService.generate_response at 1 in Hconv.
  rewrite Hfail in Hrun, Hconv.
  exists detected, b'. split; [exact Hrun|].
  rewrite Hconv. apply lookup_insert_eq.
Qed.

End Failure.

(** ** Inference mode *)

Section Inference.
Variable json_dumps : pyval -> string.
Variable uuid4 : nat -> string.
Variable now_isoformat : nat -> string.
Variable generate_response : nat -> list chat_message -> option string.
Variable extraction_prompt : string -> string.
Variable inference_prompt : string -> string.
Variable py_repr : pyval -> string.

Lemma dict_get_item d k :
  dict_get d k <> PNone -> dict_item d k = Ok (dict_get d k).
Proof.
  induction d as [|[k' v] d IH]; simpl; [congruence|].
  destruct (String.eqb k' k); [reflexivity | exact IH].
Qed.

Lemma carries_has_text r t :
  carries r t -> exists v, py_item r "text" = Ok v.
Proof.
  intros [H|(inner & H & Hinner)]; destruct r; try discriminate;
    simpl in H; inversion H as [Hd]; simpl.
  - eexists. apply dict_get_item. rewrite Hd. discriminate.
  - eexists. apply dict_get_item. rewrite Hd.
    destruct inner; discriminate.
Qed.

Lemma preference_texts_ok items :
  Forall (fun p => exists v, py_item p "text" = Ok v) items ->
  exists texts, preference_texts py_repr items = Ok texts
                /\ length texts = length items.
Proof.
  induction 1 as [|p items [v Hv] _ (texts & IH & Hlen)]; simpl.
  - now exists [].
  - rewrite Hv, IH. eexists. split; [reflexivity|]. simpl. now rewrite Hlen.
Qed.

(** X19. Inference mode stores what it extracts and then shows the
    whole store to the language model: on a list of records that all
    have a [text], [process_inference_message] appends one record for
    every valid text among the pattern matches and the LLM's preference
    (in this order), then returns the answer of the language model to a
    system prompt listing one line per record of the store as it now
    is, followed by the user's message; it leaves every chat history as
    it was. *)
Theorem process_inference_message_spec message b l :
  preferences (preference_manager b) = PList l ->
  Forall (fun p => exists v, py_item p "text" = Ok v) l ->
  let found := _extract_preferences_with_pattern message in
  let llm := preference_of_reply
               (generate_response (llm_calls b)
                  (extraction_messages extraction_prompt message)) in
  exists news texts b',
    process_inference_message json_dumps uuid4 now_isoformat
      generate_response extraction_prompt inference_prompt py_repr message b
    = (Ok (generate_response (S (llm_calls b))
             [ {| role := "system";
                  content :=
                    Some (inference_prompt
                            match texts with
                            | [] => "No preferences known yet."
                            | _ => str_join (String Re.newline "") texts
                            end) |};
               {| role := "user"; content := Some message |} ]), b')
    /\ preferences (preference_manager b') = PList (l ++ news)
    /\ Forall2 carries news (List.filter valid_text (found ++ option_list llm))
    /\ preference_texts py_repr (l ++ news) = Ok texts
    /\ length texts = length l + length news
    /\ conversations b' = conversations b.
Proof.
  intros Hl Htext found llm.
  unfold process_inference_message.
  destruct (BotFacts.save_each json_dumps uuid4 now_isoformat found
              "inference_pattern" b l Hl)
    as (b1 & Hrun & Hthrough & Hconv & Hllm).
  fold found. erewrite EffFacts.bind_ok by exact Hrun.
  unfold try_except, bind at 1 2. rewrite BotFacts.extract_returns.
  cbv beta iota. rewrite Hllm. fold llm.
  match goal with
  | |- context [match llm with Some _ => _ | None => _ end ?s] =>
      set (b1' := s)
  end.
  match goal with
  | |- context [let (_, _) := ?c b1' in _] => set (step := c)
  end.
  assert (exists b2,
             step b1' = (Ok tt, b2)
             /\ saved_through json_dumps (usable llm)
                   (preference_manager b1) (preference_manager b2)
             /\ conversations b2 = conversations b1
             /\ llm_calls b2 = S (llm_calls b))
    as (b2 & Hdet & Hthrough2 & Hconv2 & Hllm2).
  { pose proof Hthrough as (l0 & n1 & _ & Hl1 & _).
    unfold usable. subst step. destruct llm as [p|].
    - destruct (negb (len p =? 0)%nat && negb (String.eqb p "NONE")).
      + destruct (BotFacts.save_step json_dumps uuid4 now_isoformat
                    p "inference_llm" b1' _ Hl1)
          as (v & b2 & Hsave & Hthr & Hc & Hn).
        exists b2. unfold bind. rewrite Hsave.
        split; [reflexivity|]. split; [exact Hthr|]. split; assumption.
      + exists b1'. split; [reflexivity|].
        split; [exact (BotFacts.saved_refl _ _ _ Hl1)|]. split; reflexivity.
    - exists b1'. split; [reflexivity|].
      split; [exact (BotFacts.saved_refl _ _ _ Hl1)|]. split; reflexivity. }
  rewrite Hdet.
  destruct (BotFacts.saved_trans _ _ _ _ _ _ Hthrough Hthrough2)
    as (l' & news & Hl' & Hnews & Hcarry & _ & _).
  rewrite Hl in Hl'. inversion Hl'; subst l'; clear Hl'.
  assert (Forall (fun p => exists v, py_item p "text" = Ok v) (l ++ news))
    as Hall.
  { apply Forall_app. split; [exact Htext|].
    clear - Hcarry. induction Hcarry as [|r t news ts Hr _ IH];
      constructor; [eapply carries_has_text; exact Hr | exact IH]. }
  destruct (preference_texts_ok _ Hall) as (texts & Htexts & Hlen).
  exists news, texts.
  cbv beta iota zeta delta
    [bind get_preferences on_manager PreferenceManager.get_preferences
     get ret lift_result llm_generate_response with_manager].
  cbn [preference_manager conversations uuids_drawn clock_reads llm_calls].
  rewrite Hnews. cbn [py_iter]. rewrite Htexts, Hllm2.
  eexists. split; [reflexivity|]. cbn [preference_manager conversations].
  split; [exact Hnews|].
  split; [rewrite List.filter_app in Hcarry |- *; subst llm;
          rewrite <- BotFacts.usable_valid; exact Hcarry|].
  split; [reflexivity|]. split; [now rewrite Hlen, length_app|].
  now rewrite Hconv2, Hconv.
Qed.

End Inference.

Lemma returned_id_is_not_stored_witness :
  let b := with_manager Demo.sample_store (Demo.empty_bot None) in
  let r := save_preference Json.dumps Demo.uuid4 Demo.now_isoformat
             "quiet mornings" "manual_input" b in
  (exists v, fst r = Ok v /\ py_get v "id" = Ok (PStr "uuid-0"))
  /\ fst (get_preference_by_id "uuid-0" (preference_manager (snd r)))
     = Ok PNone
  /\ delete_preference Json.dumps "uuid-0" (preference_manager (snd r))
     = (Ok false, preference_manager (snd r)).
Proof.
  apply (returned_id_is_not_stored Json.dumps Demo.uuid4 Demo.now_isoformat
           "quiet mornings" "manual_input"
           (with_manager Demo.sample_store (Demo.empty_bot None))
           [[("text", PStr "tea over coffee"); ("source", PStr "manual_chat");
             ("id", PStr "a1")];
            [("text", PStr "long walks"); ("source", PStr "manual_chat");
             ("id", PStr "b2")]]).
  - reflexivity.
  - reflexivity.
  - vm_compute. discriminate.
  - vm_compute. intuition discriminate.
Defined.

Lemma format_preferences_lines_witness :
  _format_preferences_for_prompt Demo.repr
    (with_manager Demo.sample_store (Demo.empty_bot None))
  = (Ok (prompt_lines ["tea over coffee"; "long walks"]),
     with_manager Demo.sample_store (Demo.empty_bot None)).
Proof.
  apply (format_preferences_lines Demo.repr
           (with_manager Demo.sample_store (Demo.empty_bot None))
           Demo.two_records ["tea over coffee"; "long walks"]).
  - reflexivity.
  - repeat constructor.
Defined.

Lemma format_preferences_missing_text_witness :
  let b := with_manager
             {| preferences :=
                  PList (Demo.two_records ++ [PDict [("id", PStr "c3")]]);
                storage := None |}
             (Demo.empty_bot None) in
  _format_preferences_for_prompt Demo.repr b
  = (Raise (OtherError "KeyError"), b).
Proof.
  apply (format_preferences_missing_text Demo.repr _ Demo.two_records
           [("id", PStr "c3")] [] ["tea over coffee"; "long walks"]).
  - reflexivity.
  - repeat constructor.
  - intros v [H|[]]. discriminate H.
Defined.

Lemma service_failure_becomes_the_response_witness :
  exists detected b',
    process_message Json.dumps Demo.uuid4 Demo.now_isoformat
      (LLMService.generate_response Demo.api_down Demo.describe)
      Demo.system_prompt Demo.extraction_prompt
      "user1" "I really love hiking in the mountains."
      (Demo.empty_bot None)
    = (Ok (Some "Error generating response: APIConnectionError", detected),
       b')
    /\ conversations b' !! "user1"
       = Some [ {| role := "user";
                   content := Some "I really love hiking in the mountains." |};
                {| role := "assistant";
                   content :=
                     Some "Error generating response: APIConnectionError" |} ].
Proof.
  exact (service_failure_becomes_the_response Json.dumps Demo.uuid4
           Demo.now_isoformat Demo.api_down Demo.describe Demo.system_prompt
           Demo.extraction_prompt "user1"
           "I really love hiking in the mountains."
           (Demo.empty_bot None) [] (OtherError "APIConnectionError")
           eq_refl eq_refl).
Defined.

Lemma process_message_records_exchange_witness :
  exists detected b',
    process_message Json.dumps Demo.uuid4 Demo.now_isoformat
      Demo.generate_response Demo.system_prompt Demo.extraction_prompt
      "user1" "I really love hiking in the mountains."
      (Demo.empty_bot None)
    = (Ok (Some "Tell me more!", detected), b')
    /\ conversations b' !! "user1"
       = Some [ {| role := "user";
                   content := Some "I really love hiking in the mountains." |};
                {| role := "assistant"; content := Some "Tell me more!" |} ].
Proof.
  destruct (process_message_records_exchange Json.dumps Demo.uuid4
              Demo.now_isoformat Demo.generate_response Demo.system_prompt
              Demo.extraction_prompt "user1"
              "I really love hiking in the mountains."
              (Demo.empty_bot None) [] eq_refl)
    as (detected & b' & Hrun & _ & _ & Hhist & _).
  exists detected, b'. split; [exact Hrun | exact Hhist].
Defined.

Lemma process_inference_message_spec_witness :
  exists (news : list pyval) (texts : list string) b',
    process_inference_message Json.dumps Demo.uuid4 Demo.now_isoformat
      Demo.generate_response Demo.extraction_prompt Demo.inference_prompt
      Demo.repr "What should I do this weekend? I really love hiking."
      (with_manager Demo.sample_store (Demo.empty_bot None))
    = (Ok (Some "Tell me more!"), b')
    /\ preferences (preference_manager b')
       = PList (Demo.two_records ++ news)
    /\ length news = 2
    /\ length texts = 4.
Proof.
  destruct (process_inference_message_spec Json.dumps Demo.uuid4
              Demo.now_isoformat Demo.generate_response
              Demo.extraction_prompt Demo.inference_prompt Demo.repr
              "What should I do this weekend? I really love hiking."
              (with_manager Demo.sample_store (Demo.empty_bot None))
              Demo.two_records eq_refl)
    as (news & texts & b' & Hrun & Hprefs & Hcarry & _ & Hlen & _).
  { repeat constructor; eexists; reflexivity. }
  exists news, texts, b'.
  apply Forall2_length in Hcarry.
  split; [rewrite Hrun; reflexivity|]. split; [exact Hprefs|].
  split; [exact Hcarry | now rewrite Hlen, Hcarry].
Defined.

End BotMore.

(** * What the patterns extract *)

Module PatternFacts.
Import Re ElicitationBot.
#[local] Open Scope list_scope.

(** ** [strip] *)

Lemma lstrip_split s :
  exists spaces, s = spaces ++ lstrip_chars s
                 /\ Forall (fun c => is_space c = true) spaces.
Proof.
  induction s as [|c s (spaces & Hs & Hall)]; simpl.
  - exists []. split; [reflexivity | constructor].
  - destruct (is_space c) eqn:E.
    + exists (c :: spaces). split; [simpl; now f_equal | now constructor].
    + exists []. split; [reflexivity | constructor].
Qed.

Lemma lstrip_head s :
  match lstrip_chars s with
  | [] => True
  | c :: _ => is_space c = false
  end.
Proof.
  induction s as [|c s IH]; simpl; [exact I|].
  destruct (is_space c) eqn:E; [exact IH | exact E].
Qed.

Lemma lstrip_fixed s :
  match s with [] => True | c :: _ => is_space c = false end ->
  lstrip_chars s = s.
Proof. destruct s as [|c s]; simpl; [reflexivity | now intros ->]. Qed.

Lemma strip_chars_twice s : strip_chars (strip_chars s) = strip_chars s.
Proof.
  unfold strip_chars.
  destruct (lstrip_split (rev (lstrip_chars s))) as (spaces & Hsplit & _).
  set (w := lstrip_chars (rev (lstrip_chars s))) in *.
  assert (lstrip_chars (rev w) = rev w) as ->.
  { apply lstrip_fixed.
    apply (f_equal (@rev ascii)) in Hsplit.
    rewrite rev_involutive, rev_app_distr in Hsplit.
    pose proof (lstrip_head s) as Hhead. rewrite Hsplit in Hhead.
    destruct (rev w); [exact I | exact Hhead]. }
  rewrite rev_involutive.
  rewrite (lstrip_fixed w); [reflexivity|].
  subst w. apply lstrip_head.
Qed.

Lemma strip_twice s : strip (strip s) = strip s.
Proof.
  unfold strip. rewrite list_ascii_of_string_of_list_ascii.
  now rewrite strip_chars_twice.
Qed.

Lemma lstrip_keeps (P : ascii -> Prop) s :
  Forall P s -> Forall P (lstrip_chars s).
Proof.
  induction 1 as [|c s Hc Hs IH]; simpl; [constructor|].
  destruct (is_space c); [exact IH | now constructor].
Qed.

Lemma forall_rev (P : ascii -> Prop) (s : list ascii) :
  Forall P s -> Forall P (rev s).
Proof.
  intros H. apply List.Forall_forall. intros c Hc.
  apply in_rev in Hc. revert c Hc. now apply List.Forall_forall.
Qed.

Lemma strip_keeps (P : ascii -> Prop) s :
  Forall P s -> Forall P (strip_chars s).
Proof.
  intros H. unfold strip_chars.
  apply forall_rev, lstrip_keeps, forall_rev, lstrip_keeps, H.
Qed.

(** ** The matcher *)

Section Matcher.
Variable ignorecase : bool.
Context {R : Type}.

Lemma dot_ok c : atom_ok ignorecase ADot c = true -> dot_char c.
Proof. unfold dot_char. simpl. now destruct (Ascii.eqb c newline). Qed.

(** A repetition goes on after some prefix whose characters the item
    accepts. *)
Lemma lazy_star_run a s caps (k : list ascii -> captures -> option R) res :
  lazy_star ignorecase a s caps k = Some res ->
  exists j, j <= length s
            /\ Forall (fun c => atom_ok ignorecase a c = true) (firstn j s)
            /\ k (skipn j s) caps = Some res.
Proof.
  induction s as [|c s IH]; simpl.
  - destruct (k [] caps) eqn:E; [|discriminate].
    intros H. exists 0. split; [lia|]. split; [constructor|].
    simpl. congruence.
  - destruct (k (c :: s) caps) eqn:E.
    + intros H. exists 0. split; [lia|]. split; [constructor|].
      simpl. congruence.
    + destruct (atom_ok ignorecase a c) eqn:Ec; [|discriminate].
      intros H. destruct (IH H) as (j & Hj & Hall & Hk).
      exists (S j). split; [lia|]. split; [simpl; now constructor|].
      exact Hk.
Qed.

Lemma greedy_star_run a s caps (k : list ascii -> captures -> option R) res :
  greedy_star ignorecase a s caps k = Some res ->
  exists j, j <= length s
            /\ Forall (fun c => atom_ok ignorecase a c = true) (firstn j s)
            /\ k (skipn j s) caps = Some res.
Proof.
  assert (forall s, k s caps = Some res ->
                    exists j, j <= length s
                              /\ Forall (fun c => atom_ok ignorecase a c = true)
                                        (firstn j s)
                              /\ k (skipn j s) caps = Some res) as Hzero.
  { intros s0 H. exists 0. split; [lia|]. split; [constructor | exact H]. }
  induction s as [|c s IH]; simpl; [apply Hzero|].
  destruct (atom_ok ignorecase a c) eqn:Ec; [|apply Hzero].
  destruct (greedy_star ignorecase a s caps k) eqn:E.
  - intros H. rewrite <- H in *. destruct (IH eq_refl) as (j & Hj & Hall & Hk).
    exists (S j). split; [lia|]. split; [simpl; now constructor|].
    exact Hk.
  - apply Hzero.
Qed.

Lemma one_then_run a s (k : list ascii -> option R) res :
  one_then ignorecase a s k = Some res ->
  exists c s', s = c :: s' /\ atom_ok ignorecase a c = true
               /\ k s' = Some res.
Proof.
  destruct s as [|c s]; simpl; [discriminate|].
  destruct (atom_ok ignorecase a c) eqn:E; [|discriminate].
  intros H. now exists c, s.
Qed.

Lemma firstn_consumed {A} (s : list A) j :
  j <= length s -> firstn (length s - length (skipn j s)) s = firstn j s.
Proof. intros H. rewrite length_skipn. f_equal. lia. Qed.

(** The matcher hands its continuation only groups that are runs of
    [.], when the pattern's groups are. *)
Lemma exec_dotted (r : regex) :
  dot_groups r = true ->
  forall s caps (k : list ascii -> captures -> option R) res,
    dotted caps ->
    exec ignorecase r s caps k = Some res ->
    exists s' caps', dotted caps' /\ k s' caps' = Some res.
Proof.
  induction r as [ |a|r1 IH1 r2 IH2|r1 IH1 r2 IH2|r1 IH1|a|a|a|a|n r1 IH1| ];
    intros Hr s caps k res Hcaps H; simpl in H.
  - eauto.
  - apply one_then_run in H as (c & s' & _ & _ & H). eauto.
  - simpl in Hr. apply andb_true_iff in Hr as [Hr1 Hr2].
    destruct (IH1 Hr1 _ _ _ _ Hcaps H) as (s1 & caps1 & Hcaps1 & H1).
    exact (IH2 Hr2 _ _ _ _ Hcaps1 H1).
  - simpl in Hr. apply andb_true_iff in Hr as [Hr1 Hr2].
    destruct (exec ignorecase r1 s caps k) eqn:E.
    + rewrite <- H in *. exact (IH1 Hr1 _ _ _ _ Hcaps E).
    + exact (IH2 Hr2 _ _ _ _ Hcaps H).
  - simpl in Hr. destruct (exec ignorecase r1 s caps k) eqn:E.
    + rewrite <- H in *. exact (IH1 Hr _ _ _ _ Hcaps E).
    + eauto.
  - apply greedy_star_run in H as (j & _ & _ & H). eauto.
  - apply one_then_run in H as (c & s' & _ & _ & H).
    apply greedy_star_run in H as (j & _ & _ & H). eauto.
  - apply lazy_star_run in H as (j & _ & _ & H). eauto.
  - apply one_then_run in H as (c & s' & _ & _ & H).
    apply lazy_star_run in H as (j & _ & _ & H). eauto.
  - assert (forall j, j <= length s ->
                      Forall (fun c => atom_ok ignorecase ADot c = true)
                             (firstn j s) ->
                      dotted ((n, firstn (length s - length (skipn j s)) s)
                              :: caps)) as Hgroup.
    { intros j Hj Hall. constructor; [|exact Hcaps]. simpl.
      rewrite firstn_consumed by exact Hj.
      apply List.Forall_forall. intros c Hc. apply dot_ok.
      revert c Hc. now apply List.Forall_forall. }
    destruct r1 as [ | | | | |a|a|a|a| | ]; try discriminate Hr;
      destruct a; try discriminate Hr; simpl in H.
    + apply greedy_star_run in H as (j & Hj & Hall & H).
      eexists _, _. split; [|exact H]. now apply Hgroup.
    + apply one_then_run in H as (c & s' & -> & Hc & H).
      apply greedy_star_run in H as (j & Hj & Hall & H).
      eexists _, _. split; [|exact H].
      apply (Hgroup (S j)); [simpl; lia | simpl; now constructor].
    + apply lazy_star_run in H as (j & Hj & Hall & H).
      eexists _, _. split; [|exact H]. now apply Hgroup.
    + apply one_then_run in H as (c & s' & -> & Hc & H).
      apply lazy_star_run in H as (j & Hj & Hall & H).
      eexists _, _. split; [|exact H].
      apply (Hgroup (S j)); [simpl; lia | simpl; now constructor].
  - destruct s as [|c [|c' s]]; [eauto | | discriminate].
    destruct (Ascii.eqb c newline); [eauto | discriminate].
Qed.

End Matcher.

Lemma match_at_dotted ignorecase r s rest caps :
  dot_groups r = true ->
  match_at ignorecase r s = Some (rest, caps) -> dotted caps.
Proof.
  intros Hr H. unfold match_at in H.
  destruct (exec_dotted ignorecase r Hr _ _ _ _ (List.Forall_nil _) H)
    as (s' & caps' & Hcaps & E).
  now inversion E; subst.
Qed.

Lemma finditer_dotted ignorecase r :
  dot_groups r = true ->
  forall s skip caps,
    In caps (finditer_from ignorecase r s skip) -> dotted caps.
Proof.
  intros Hr. induction s as [|c s IH]; intros skip caps; simpl.
  - destruct skip; [|contradiction].
    destruct (match_at ignorecase r []) as [[rest caps']|] eqn:E;
      [|contradiction].
    intros [<-|[]]. exact (match_at_dotted _ _ _ _ _ Hr E).
  - destruct skip as [|skip]; [|apply IH].
    destruct (match_at ignorecase r (c :: s)) as [[rest caps']|] eqn:E;
      [|apply IH].
    intros [<-|H]; [exact (match_at_dotted _ _ _ _ _ Hr E) | exact (IH _ _ H)].
Qed.

Lemma search_dotted ignorecase r :
  dot_groups r = true ->
  forall s rest caps,
    search_chars ignorecase r s = Some (rest, caps) -> dotted caps.
Proof.
  intros Hr. induction s as [|c s IH]; intros rest caps; simpl.
  - destruct (match_at ignorecase r []) as [m|] eqn:E; [|discriminate].
    intros H. inversion H; subst. exact (match_at_dotted _ _ _ _ _ Hr E).
  - destruct (match_at ignorecase r (c :: s)) as [m|] eqn:E; [|apply IH].
    intros H. inversion H; subst. exact (match_at_dotted _ _ _ _ _ Hr E).
Qed.

Lemma group_dotted caps n g :
  dotted caps -> group caps n = Some g -> Forall dot_char g.
Proof.
  induction 1 as [|[n' g'] caps Hg _ IH]; simpl; [discriminate|].
  destruct (n' =? n)%nat; [|exact IH].
  intros H. inversion H; subst. exact Hg.
Qed.

Lemma patterns_dot_groups :
  forallb dot_groups preference_patterns = true.
Proof. reflexivity. Qed.

Lemma stripped_group_clean g :
  Forall dot_char g ->
  let p := strip (string_of_list_ascii g) in
  strip p = p /\ ~ In newline (list_ascii_of_string p).
Proof.
  intros Hg. cbv zeta. split; [apply strip_twice|].
  unfold strip. rewrite !list_ascii_of_string_of_list_ascii.
  intros Hin.
  pose proof (strip_keeps _ _ Hg) as Hkept.
  apply (proj1 (List.Forall_forall _ _) Hkept) in Hin.
  unfold dot_char in Hin. now rewrite Ascii.eqb_refl in Hin.
Qed.

(** X20. What the patterns extract is a clean single line: every text
    returned by [_extract_preferences_with_pattern], for every message,
    has no white space at either end and contains no newline. *)
Theorem extracted_preferences_are_clean message p :
  In p (_extract_preferences_with_pattern message) ->
  strip p = p /\ ~ In newline (list_ascii_of_string p).
Proof.
  unfold _extract_preferences_with_pattern. intros H.
  apply in_flat_map in H as (pattern & Hpattern & H).
  apply in_flat_map in H as (m & Hm & H).
  pose proof patterns_dot_groups as Hall.
  rewrite forallb_forall in Hall. specialize (Hall _ Hpattern).
  pose proof (finditer_dotted true pattern Hall _ _ _ Hm) as Hdotted.
  unfold kept_group in H.
  destruct (group m 1) as [g|] eqn:Hg; [|contradiction].
  destruct ((0 <? ngroups pattern)%nat && (5 <? length g)%nat);
    [|contradiction].
  destruct H as [<-|[]].
  apply stripped_group_clean. exact (group_dotted _ _ _ Hdotted Hg).
Qed.

Section Reply.
Variable generate_response : nat -> list chat_message -> option string.
Variable extraction_prompt : string -> string.

(** X21. What is read off the answer of the language model is a clean
    single line too: a preference returned by
    [_extract_preference_from_response] has no white space at either
    end, contains no newline and is never the word [NONE]. *)
Theorem llm_preference_is_clean message b p b' :
  _extract_preference_from_response generate_response extraction_prompt
    message b = (Ok (Some p), b') ->
  strip p = p
  /\ ~ In newline (list_ascii_of_string p)
  /\ p <> "NONE".
Proof.
  rewrite BotFacts.extract_returns. intros H. inversion H as [[Hp Hb]].
  clear H Hb.
  pose proof (BotFacts.preference_of_reply_not_NONE _ _ Hp) as Hnone.
  unfold preference_of_reply in Hp.
  destruct (generate_response _ _) as [text|]; [|discriminate].
  unfold search in Hp.
  destruct (search_chars false preference_line (list_ascii_of_string text))
    as [[rest caps]|] eqn:E; [|discriminate].
  simpl in Hp. unfold group_str in Hp.
  destruct (group caps 1) as [g|] eqn:Hg; [|discriminate]. simpl in Hp.
  destruct (String.eqb (strip (string_of_list_ascii g)) "NONE");
    [discriminate|].
  inversion Hp; subst p.
  pose proof (search_dotted false preference_line eq_refl _ _ _ E) as Hd.
  destruct (stripped_group_clean g (group_dotted _ _ _ Hd Hg)) as [H1 H2].
  split; [exact H1|]. split; [exact H2|].
  intros Heq. rewrite Heq in Hnone. discriminate.
Qed.

End Reply.

Lemma extracted_preferences_are_clean_witness :
  strip "hiking in the mountains" = "hiking in the mountains"
  /\ ~ In newline (list_ascii_of_string "hiking in the mountains").
Proof.
  apply (extracted_preferences_are_clean
           "I really love hiking in the mountains. I hate getting up early!").
  vm_compute. now left.
Defined.

Lemma llm_preference_is_clean_witness :
  strip "enjoys long walks" = "enjoys long walks"
  /\ ~ In newline (list_ascii_of_string "enjoys long walks")
  /\ "enjoys long walks" <> "NONE".
Proof.
  eapply (llm_preference_is_clean Demo.generate_response
            Demo.extraction_prompt "I walk a lot" (Demo.empty_bot None)).
  vm_compute. reflexivity.
Defined.

End PatternFacts.
